(** * Boxer roster and leaderboard

    A shallow embedding of the two boxer models of the repository:

    - [HW2]: hw2/boxing/models/boxers_model.py, module-level functions over a
      sqlite3 connection (the variant the test-suite exercises);
    - [HW3]: HW/HW3 caching/boxing/boxing/models/boxers_model.py, the
      [Boxers] class over a Flask-SQLAlchemy session.

    Python exceptions are an explicit outcome, the database is an explicit
    state threaded through every call, and the percentage arithmetic is
    IEEE-754 binary64, computed with the reference operations of
    [SpecFloat]. *)

From Stdlib Require Import ZArith QArith Bool List String Ascii Lia.
From Stdlib Require Import Permutation Sorted Lqa.
From Stdlib Require Import Floats.SpecFloat.
Import ListNotations.

Open Scope string_scope.
Open Scope list_scope.
Open Scope Z_scope.

(** ** Python values and exceptions *)

(** The text of every [raise] of the two modules.  The f-strings only
    interpolate the offending argument, so a message is kept as its template
    together with that argument. *)
Inductive message : Type :=
| Invalid_weight (weight : Q)
    (* "Invalid weight: {weight}. Must be at least 125." *)
| Invalid_height (height : Q)
    (* "Invalid height: {height}. Must be greater than 0." *)
| Invalid_reach (reach : Q)
    (* "Invalid reach: {reach}. Must be greater than 0." *)
| Invalid_age (age : Z)
    (* "Invalid age: {age}. Must be between 18 and 40." *)
| Name_must_be_non_empty
    (* "Boxer name must be a non-empty string." *)
| Name_already_exists (name : string)
    (* "Boxer with name '{name}' already exists" *)
| Id_not_found (boxer_id : Z)
    (* "Boxer with ID {boxer_id} not found." *)
| Name_not_found (boxer_name : string)
    (* "Boxer '{boxer_name}' not found." *)
| Weight_below_classes (weight : Q)
    (* "Invalid weight: {weight}. Weight must be at least 125." *)
| Invalid_result (result : string)
    (* "Invalid result: {result}. Expected 'win' or 'loss'." *)
| Invalid_sort_by (sort_by : string)
    (* "Invalid sort_by parameter: {sort_by}" *)
| Result_must_be_win_or_loss
    (* "Result must be 'win' or 'loss'." *)
| Wins_exceed_fights.
    (* "Wins cannot exceed number of fights." *)

Inductive exn : Type :=
| ValueError (msg : message)
| IntegrityError    (* sqlite3.IntegrityError, sqlalchemy.exc.IntegrityError *)
| NameError (identifier : string)
| TypeError.

Inductive outcome (A : Type) : Type :=
| Returns (a : A)
| Raises (e : exn).
Arguments Returns {A} a.
Arguments Raises {A} e.

(** The error kinds of the specification (section 7).  Both modules raise
    [ValueError] for all of them; the kind is told by the message. *)
Inductive error_kind : Type :=
| ValidationError | ConflictError | NotFoundError | InvariantViolationError.

Definition kind_of_message (m : message) : error_kind :=
  match m with
  | Invalid_weight _ | Invalid_height _ | Invalid_reach _ | Invalid_age _
  | Name_must_be_non_empty | Weight_below_classes _
  | Invalid_result _ | Invalid_sort_by _ | Result_must_be_win_or_loss =>
      ValidationError
  | Name_already_exists _ => ConflictError
  | Id_not_found _ | Name_not_found _ => NotFoundError
  | Wins_exceed_fights => InvariantViolationError
  end.

Definition error_kind_of {A} (o : outcome A) : option error_kind :=
  match o with
  | Raises (ValueError m) => Some (kind_of_message m)
  | _ => None
  end.

(** [str.strip()]: the string without its leading and trailing whitespace.
    Strings are byte strings here, and the whitespace is the ASCII one of
    [str.isspace]: tab to carriage return, the four separators, the blank. *)
Definition isspace (c : ascii) : bool :=
  let n := N_of_ascii c in
  ((9 <=? n) && (n <=? 13) || (28 <=? n) && (n <=? 31) || (n =? 32))%N.

Fixpoint lstrip (s : string) : string :=
  match s with
  | String c s' => if isspace c then lstrip s' else s
  | EmptyString => EmptyString
  end.

Fixpoint rstrip (s : string) : string :=
  match s with
  | EmptyString => EmptyString
  | String c s' =>
      match rstrip s' with
      | EmptyString => if isspace c then EmptyString else String c EmptyString
      | kept => String c kept
      end
  end.

Definition strip (s : string) : string := rstrip (lstrip s).

(** ** Numbers

    Weights, heights and reaches are annotated [int] in one module and
    [float] in the other, and the code only ever compares them with integer
    literals.  Python compares numbers of mixed type by value, so they range
    over the rationals, which hold every [int] and every finite [float]. *)

Definition Qlt_bool (x y : Q) : bool := negb (Qle_bool y x).

Module Float64.

(** binary64: 53 bits of precision, infinities at exponent 1024. *)
Definition float : Type := spec_float.
Definition prec : Z := 53.
Definition emax : Z := 1024.

(** [float(z)] and the conversion of an INTEGER operand to REAL in SQLite:
    the nearest binary64, ties to even. *)
Definition of_int (z : Z) : float := binary_normalize prec emax z 0 false.

Definition mul : float -> float -> float := SFmul prec emax.
Definition div : float -> float -> float := SFdiv prec emax.
Definition ltb : float -> float -> bool := SFltb.

(** The nearest binary64 to the quotient [n / d] of two positive integers
    of any size: [int.__truediv__], and the decimal-to-binary conversion
    that ends [round]. *)
Definition of_ratio (s : bool) (n d : positive) : float :=
  let '(m, e, l) := SFdiv_core_binary prec emax (Zpos n) 0 (Zpos d) 0 in
  binary_round_aux prec emax s m e l.

(** The integer nearest to [n / d] for [0 < d], ties to the even one. *)
Definition nearest_even (n d : Z) : Z :=
  let q := n / d in
  match 2 * (n mod d) ?= d with
  | Lt => q
  | Gt => q + 1
  | Eq => if Z.even q then q else q + 1
  end.

(** The float written with one decimal, [tenths / 10], of sign [s]. *)
Definition of_tenths (s : bool) (tenths : Z) : float :=
  match tenths with
  | Zpos p => of_ratio s p 10
  | _ => S754_zero s
  end.

(** [round(x, 1)] of CPython ([float.__round__] with [ndigits = 1]): the
    exact value of [x] is written with one correctly rounded decimal, ties
    to even, and read back; infinities and nan round to themselves. *)
Definition round1 (x : float) : float :=
  match x with
  | S754_finite s m e =>
      of_tenths s
        match e with
        | Zneg k => nearest_even (10 * Zpos m) (2 ^ Zpos k)
        | _ => 10 * Zpos m * 2 ^ e
        end
  | _ => x
  end.

(** [n / d] on Python ints, for a positive divisor. *)
Definition truediv (n : Z) (d : positive) : float :=
  match n with
  | Z0 => S754_zero false
  | Zpos p => of_ratio false p d
  | Zneg p => of_ratio true p d
  end.

End Float64.

(** ** ORDER BY ... DESC and [list.sort(reverse=True)]

    A stable descending sort: an element moves in front of the elements
    whose key is strictly smaller than its own and of nothing else, so rows
    with equal keys keep the order they came in. *)
Section Descending.

Context {A K : Type}.
Variable ltb : K -> K -> bool.
Variable key : A -> K.

Fixpoint insert_desc (x : A) (l : list A) : list A :=
  match l with
  | [] => [x]
  | y :: l' =>
      if ltb (key x) (key y) then y :: insert_desc x l' else x :: y :: l'
  end.

Fixpoint sort_desc (l : list A) : list A :=
  match l with
  | [] => []
  | x :: l' => insert_desc x (sort_desc l')
  end.

(** No element is followed by one with a strictly greater key. *)
Definition descending : list A -> Prop :=
  Sorted (fun a b => ltb (key a) (key b) = false).

End Descending.

(** ** The sqlite module, hw2

    The calls of the logger do not bear on any result and are left out, as
    is the handler that closes every function but one,
    [except sqlite3.Error as e: raise e], which raises again what it
    caught. *)

Module HW2.

(** *** The [boxers] table *)

Module Row.
Record t : Type := mk
  { id : Z; name : string; weight : Q; height : Q; reach : Q; age : Z;
    fights : Z; wins : Z }.
End Row.

Inductive order_by : Type := ORDER_BY_win_pct_DESC | ORDER_BY_wins_DESC.

(** The statements the module hands to [cursor.execute]. *)
Inductive statement : Type :=
| SELECT_1_WHERE_name (name : string)
| INSERT_INTO_boxers (name : string) (weight height reach : Q) (age : Z)
| SELECT_id_WHERE_id (boxer_id : Z)
| DELETE_WHERE_id (boxer_id : Z)
| SELECT_leaderboard (order : order_by)
| SELECT_boxer_WHERE_id (boxer_id : Z)
| SELECT_boxer_WHERE_name (boxer_name : string)
| UPDATE_fights_wins_WHERE_id (boxer_id : Z)
| UPDATE_fights_WHERE_id (boxer_id : Z).

Inductive event : Type :=
| Connect                      (* get_db_connection() *)
| Execute (s : statement)      (* cursor.execute(s) *)
| Commit.                      (* conn.commit() *)

(** The database: the rows of [boxers] in rowid order, and everything the
    module has asked of it so far, oldest first. *)
Record db : Type := mk_db { boxers : list Row.t; journal : list event }.

(** A call runs on a database and leaves a database, whether it returns or
    raises. *)
Definition M (A : Type) : Type := db -> outcome A * db.

Definition ret {A} (a : A) : M A := fun d => (Returns a, d).
Definition raise {A} (e : exn) : M A := fun d => (Raises e, d).
Definition bind {A B} (m : M A) (k : A -> M B) : M B :=
  fun d =>
    match m d with
    | (Returns a, d') => k a d'
    | (Raises e, d') => (Raises e, d')
    end.
Definition try_except {A} (m : M A) (handler : exn -> M A) : M A :=
  fun d =>
    match m d with
    | (Returns a, d') => (Returns a, d')
    | (Raises e, d') => handler e d'
    end.
Definition lift {A} (o : outcome A) : M A := fun d => (o, d).

Notation "x <- m ;; k" := (bind m (fun x => k))
  (at level 61, m at next level, right associativity).
Notation "m ;;; k" := (bind m (fun _ => k))
  (at level 61, right associativity).

Definition log (e : event) : M unit :=
  fun d => (Returns tt, mk_db (boxers d) (journal d ++ [e])).
Definition rows : M (list Row.t) := fun d => (Returns (boxers d), d).
Definition store (t : list Row.t) : M unit :=
  fun d => (Returns tt, mk_db t (journal d)).

(** Modelled from the spec: [get_db_connection] of boxing.utils.sql_utils,
    which is not among the source files; the persistence gateway of the
    specification, a connection that is opened, handed to the body and left
    whichever way the body ends.
    [with get_db_connection() as conn: cursor = conn.cursor(); body]. *)
Definition with_connection {A} (body : M A) : M A := log Connect ;;; body.
Definition commit : M unit := log Commit.

Definition has_name (n : string) (r : Row.t) : bool := String.eqb (Row.name r) n.
Definition has_id (i : Z) (r : Row.t) : bool := Row.id r =? i.

(** The next rowid: one more than the largest in the table. *)
Definition next_id (t : list Row.t) : Z :=
  1 + fold_right (fun r m => Z.max (Row.id r) m) 0 t.

(** [SELECT 1 FROM boxers WHERE name = ?] and [cursor.fetchone()]. *)
Definition select_1_where_name (n : string) : M (option Z) :=
  log (Execute (SELECT_1_WHERE_name n)) ;;;
  t <- rows ;;
  ret (option_map (fun _ => 1) (find (has_name n) t)).

(** Modelled from the spec: the schema of [boxers], which is not among the
    source files.  [id] is assigned by the database, [name] is unique (a
    second row of the same name is refused with [IntegrityError]), and
    [fights] and [wins], which the INSERT does not mention, start at 0. *)
Definition insert_into_boxers (n : string) (w h r : Q) (a : Z) : M unit :=
  log (Execute (INSERT_INTO_boxers n w h r a)) ;;;
  t <- rows ;;
  if existsb (has_name n) t then raise IntegrityError
  else store (t ++ [Row.mk (next_id t) n w h r a 0 0]).

(** [SELECT id FROM boxers WHERE id = ?] and [cursor.fetchone()]. *)
Definition select_id_where_id (i : Z) : M (option Z) :=
  log (Execute (SELECT_id_WHERE_id i)) ;;;
  t <- rows ;;
  ret (option_map Row.id (find (has_id i) t)).

(** [DELETE FROM boxers WHERE id = ?]. *)
Definition delete_where_id (i : Z) : M unit :=
  log (Execute (DELETE_WHERE_id i)) ;;;
  t <- rows ;;
  store (filter (fun r => negb (has_id i r)) t).

(** [SELECT id, name, weight, height, reach, age FROM boxers WHERE id = ?]
    and [cursor.fetchone()]. *)
Definition select_boxer_where_id (i : Z) : M (option Row.t) :=
  log (Execute (SELECT_boxer_WHERE_id i)) ;;;
  t <- rows ;;
  ret (find (has_id i) t).

(** The same columns [WHERE name = ?], and [cursor.fetchone()]. *)
Definition select_boxer_where_name (n : string) : M (option Row.t) :=
  log (Execute (SELECT_boxer_WHERE_name n)) ;;;
  t <- rows ;;
  ret (find (has_name n) t).

Definition won (r : Row.t) : Row.t :=
  Row.mk (Row.id r) (Row.name r) (Row.weight r) (Row.height r) (Row.reach r)
         (Row.age r) (Row.fights r + 1) (Row.wins r + 1).
Definition lost (r : Row.t) : Row.t :=
  Row.mk (Row.id r) (Row.name r) (Row.weight r) (Row.height r) (Row.reach r)
         (Row.age r) (Row.fights r + 1) (Row.wins r).

Definition update_where_id (i : Z) (f : Row.t -> Row.t) (t : list Row.t)
  : list Row.t :=
  map (fun r => if has_id i r then f r else r) t.

(** [UPDATE boxers SET fights = fights + 1, wins = wins + 1 WHERE id = ?]. *)
Definition update_fights_wins_where_id (i : Z) : M unit :=
  log (Execute (UPDATE_fights_wins_WHERE_id i)) ;;;
  t <- rows ;;
  store (update_where_id i won t).

(** [UPDATE boxers SET fights = fights + 1 WHERE id = ?]. *)
Definition update_fights_where_id (i : Z) : M unit :=
  log (Execute (UPDATE_fights_WHERE_id i)) ;;;
  t <- rows ;;
  store (update_where_id i lost t).

(** [wins * 1.0 / fights] in SQLite: both integers become REAL and the
    product and the quotient are the binary64 ones. *)
Definition win_ratio (wins fights : Z) : Float64.float :=
  Float64.div (Float64.mul (Float64.of_int wins) (Float64.of_int 1))
              (Float64.of_int fights).

(** The ninth column of the leaderboard query, [win_pct]. *)
Definition sql_win_pct (r : Row.t) : Float64.float :=
  win_ratio (Row.wins r) (Row.fights r).

(** [WHERE fights > 0]. *)
Definition where_fights (t : list Row.t) : list Row.t :=
  filter (fun r => 0 <? Row.fights r) t.

(** The nine columns of a selected row: the eight of the table and the
    ratio. *)
Definition with_win_pct (t : list Row.t) : list (Row.t * Float64.float) :=
  map (fun r => (r, sql_win_pct r)) t.

(** [ORDER BY win_pct DESC] and [ORDER BY wins DESC].  SQLite leaves the
    order of rows with equal keys open; they stay in table order here, and
    no property below depends on it. *)
Definition ordered (o : order_by) (selected : list (Row.t * Float64.float))
  : list (Row.t * Float64.float) :=
  match o with
  | ORDER_BY_win_pct_DESC => sort_desc Float64.ltb snd selected
  | ORDER_BY_wins_DESC => sort_desc Z.ltb (fun c => Row.wins (fst c)) selected
  end.

(** [SELECT id, name, weight, height, reach, age, fights, wins,
    (wins * 1.0 / fights) AS win_pct FROM boxers WHERE fights > 0
    ORDER BY ... DESC] and [cursor.fetchall()]. *)
Definition select_leaderboard (o : order_by) : M (list (Row.t * Float64.float)) :=
  log (Execute (SELECT_leaderboard o)) ;;;
  t <- rows ;;
  ret (ordered o (with_win_pct (where_fights t))).

(** What other connections commit to the table while a call of this
    module sits between two of its statements; nothing, in a run that has
    the database to itself. *)
Definition meanwhile (others : list Row.t -> list Row.t) : M unit :=
  t <- rows ;; store (others t).

(** *** The functions of the module *)

(** [get_weight_class(weight)]. *)
Definition get_weight_class (weight : Q) : outcome string :=
  if Qle_bool 203 weight then Returns "HEAVYWEIGHT"
  else if Qle_bool 166 weight then Returns "MIDDLEWEIGHT"
  else if Qle_bool 133 weight then Returns "LIGHTWEIGHT"
  else if Qle_bool 125 weight then Returns "FEATHERWEIGHT"
  else Raises (ValueError (Weight_below_classes weight)).

(** The dataclass [Boxer]; [__post_init__] assigns the weight class. *)
Module Boxer.
Record t : Type := mk
  { id : Z; name : string; weight : Q; height : Q; reach : Q; age : Z;
    weight_class : string }.
End Boxer.

Definition Boxer (id : Z) (name : string) (weight height reach : Q) (age : Z)
  : outcome Boxer.t :=
  match get_weight_class weight with
  | Returns c => Returns (Boxer.mk id name weight height reach age c)
  | Raises e => Raises e
  end.

Definition Boxer_of_row (r : Row.t) : outcome Boxer.t :=
  Boxer (Row.id r) (Row.name r) (Row.weight r) (Row.height r) (Row.reach r)
        (Row.age r).

(** [create_boxer(name, weight, height, reach, age)], with what the other
    connections do between its SELECT and its INSERT.  The last handler of
    the source, [except sqlite3.Error as e: raise e], changes nothing. *)
Definition create_boxer_meanwhile (others : list Row.t -> list Row.t)
    (name : string) (weight height reach : Q) (age : Z) : M unit :=
  if Qlt_bool weight 125 then raise (ValueError (Invalid_weight weight))
  else if Qle_bool height 0 then raise (ValueError (Invalid_height height))
  else if Qle_bool reach 0 then raise (ValueError (Invalid_reach reach))
  else if negb ((18 <=? age) && (age <=? 40))
  then raise (ValueError (Invalid_age age))
  else
    try_except
      (with_connection
         (found <- select_1_where_name name ;;
          match found with
          | Some _ => raise (ValueError (Name_already_exists name))
          | None =>
              meanwhile others ;;;
              insert_into_boxers name weight height reach age ;;;
              commit
          end))
      (fun e =>
         match e with
         | IntegrityError => raise (ValueError (Name_already_exists name))
         | _ => raise e
         end).

Definition create_boxer : string -> Q -> Q -> Q -> Z -> M unit :=
  create_boxer_meanwhile (fun t => t).

(** [delete_boxer(boxer_id)]. *)
Definition delete_boxer (boxer_id : Z) : M unit :=
  with_connection
    (found <- select_id_where_id boxer_id ;;
     match found with
     | None => raise (ValueError (Id_not_found boxer_id))
     | Some _ => delete_where_id boxer_id ;;; commit
     end).

(** One dict of the leaderboard. *)
Module Entry.
Record t : Type := mk
  { id : Z; name : string; weight : Q; height : Q; reach : Q; age : Z;
    weight_class : string; fights : Z; wins : Z; win_pct : Float64.float }.
End Entry.

(** The body of the loop over the fetched rows; [row[8]] is the ratio the
    query computed, [round(row[8] * 100, 1)] the percentage. *)
Definition entry_of (row : Row.t * Float64.float) : outcome Entry.t :=
  match get_weight_class (Row.weight (fst row)) with
  | Raises e => Raises e
  | Returns c =>
      Returns
        (Entry.mk (Row.id (fst row)) (Row.name (fst row))
           (Row.weight (fst row)) (Row.height (fst row))
           (Row.reach (fst row)) (Row.age (fst row)) c
           (Row.fights (fst row)) (Row.wins (fst row))
           (Float64.round1 (Float64.mul (snd row) (Float64.of_int 100))))
  end.

Fixpoint entries (fetched : list (Row.t * Float64.float))
  : outcome (list Entry.t) :=
  match fetched with
  | [] => Returns []
  | row :: rest =>
      match entry_of row with
      | Raises e => Raises e
      | Returns boxer =>
          match entries rest with
          | Raises e => Raises e
          | Returns leaderboard => Returns (boxer :: leaderboard)
          end
      end
  end.

(** [get_leaderboard(sort_by)]; called without argument, [sort_by] is
    ["wins"]. *)
Definition get_leaderboard (sort_by : string) : M (list Entry.t) :=
  order <-
    (if String.eqb sort_by "win_pct" then ret ORDER_BY_win_pct_DESC
     else if String.eqb sort_by "wins" then ret ORDER_BY_wins_DESC
     else raise (ValueError (Invalid_sort_by sort_by))) ;;
  fetched <- with_connection (select_leaderboard order) ;;
  lift (entries fetched).

(** [get_boxer_by_id(boxer_id)]. *)
Definition get_boxer_by_id (boxer_id : Z) : M Boxer.t :=
  with_connection
    (row <- select_boxer_where_id boxer_id ;;
     match row with
     | Some r => lift (Boxer_of_row r)
     | None => raise (ValueError (Id_not_found boxer_id))
     end).

(** [get_boxer_by_name(boxer_name)]. *)
Definition get_boxer_by_name (boxer_name : string) : M Boxer.t :=
  with_connection
    (row <- select_boxer_where_name boxer_name ;;
     match row with
     | Some r => lift (Boxer_of_row r)
     | None => raise (ValueError (Name_not_found boxer_name))
     end).

(** [update_boxer_stats(boxer_id, result)]. *)
Definition update_boxer_stats (boxer_id : Z) (result : string) : M unit :=
  if negb (String.eqb result "win" || String.eqb result "loss")
  then raise (ValueError (Invalid_result result))
  else
    with_connection
      (found <- select_id_where_id boxer_id ;;
       match found with
       | None => raise (ValueError (Id_not_found boxer_id))
       | Some _ =>
           (if String.eqb result "win"
            then update_fights_wins_where_id boxer_id
            else update_fights_where_id boxer_id) ;;;
           commit
       end).

(** A caller that records one result after the other and carries on when
    a call raises. *)
Fixpoint update_all (calls : list (Z * string)) (d : db) : db :=
  match calls with
  | [] => d
  | (boxer_id, result) :: rest =>
      update_all rest (snd (update_boxer_stats boxer_id result d))
  end.

End HW2.

(** ** The SQLAlchemy module, HW3

    The methods are functions of the instances the session holds, given as
    a list where a method queries them. *)

Module HW3.

(** An instance of the mapped class [Boxers].  [fights] and [weight_class]
    are read and written by the methods below, and the constructor's
    docstring has [fights] in the database schema, but no [db.Column] of
    the class declares either: they are fields here as the methods use
    them. *)
Module Boxers.
Record t : Type := mk
  { id : Z; name : string; weight : Q; height : Q; reach : Q; age : Z;
    weight_class : string; fights : Z; wins : Z }.
End Boxers.

(** [Boxers.__init__(self, name, weight, height, reach, age)], which
    returns the name it leaves in [self.name].  The fifth check reads
    [self.name], not the argument; [self_name] is what the attribute holds
    when the constructor starts, [None] or a string. *)
Definition __init__ (self_name : option string)
    (name : string) (weight height reach : Q) (age : Z) : outcome string :=
  if Qlt_bool weight 125 then Raises (ValueError (Invalid_weight weight))
  else if Qle_bool height 0 then Raises (ValueError (Invalid_height height))
  else if Qle_bool reach 0 then Raises (ValueError (Invalid_reach reach))
  else if negb ((18 <=? age) && (age <=? 40))
  then Raises (ValueError (Invalid_age age))
  else
    match self_name with
    | None | Some EmptyString => Raises (ValueError Name_must_be_non_empty)
    | Some _ => Returns name
    end.

(** [Boxers(name=..., weight=..., ...)]: on a new instance the attribute of
    a column that was never set reads [None]. *)
Definition Boxers : string -> Q -> Q -> Q -> Z -> outcome string :=
  __init__ None.

(** [Boxers.get_weight_class(weight)]. *)
Definition get_weight_class (weight : Q) : outcome string :=
  if Qle_bool 203 weight then Returns "HEAVYWEIGHT"
  else if Qle_bool 166 weight then Returns "MIDDLEWEIGHT"
  else if Qle_bool 133 weight then Returns "LIGHTWEIGHT"
  else if Qle_bool 125 weight then Returns "FEATHERWEIGHT"
  else Raises (ValueError (Weight_below_classes weight)).

(** [Boxers.create_boxer(name, ...)] up to its first database access.  The
    [ValueError] of the constructor is logged and raised again; were the
    constructor to return, [boxer.__init__()] lacks its five arguments. *)
Definition create_boxer (name : string) (weight height reach : Q) (age : Z)
  : outcome unit :=
  match Boxers (strip name) weight height reach age with
  | Raises e => Raises e
  | Returns _ => Raises TypeError
  end.

(** [Boxers.get_boxer_by_id(boxer_id)] over the stored instances.  The
    module imports [IntegrityError] alone, so when the [ValueError] of the
    missing boxer reaches [except SQLAlchemyError] the handler's class is
    an unbound name and the lookup of it raises [NameError]. *)
Definition get_boxer_by_id (stored : list Boxers.t) (boxer_id : Z)
  : outcome Boxers.t :=
  match find (fun b => Boxers.id b =? boxer_id) stored with
  | Some boxer => Returns boxer
  | None => Raises (NameError "SQLAlchemyError")
  end.

(** [Boxers.get_boxer_by_name(name)]:
    [cls.query.filter_by(name=name.strip()).first()], and the same handler. *)
Definition get_boxer_by_name (stored : list Boxers.t) (name : string)
  : outcome Boxers.t :=
  match find (fun b => String.eqb (Boxers.name b) (strip name)) stored with
  | Some boxer => Returns boxer
  | None => Raises (NameError "SQLAlchemyError")
  end.

Definition set_counters (self : Boxers.t) (fights wins : Z) : Boxers.t :=
  Boxers.mk (Boxers.id self) (Boxers.name self) (Boxers.weight self)
            (Boxers.height self) (Boxers.reach self) (Boxers.age self)
            (Boxers.weight_class self) fights wins.

(** [self.update_stats(result)]: the outcome, the instance as the call
    leaves it, and whether [db.session.commit()] was reached. *)
Definition update_stats (self : Boxers.t) (result : string)
  : outcome unit * Boxers.t * bool :=
  if negb (String.eqb result "win" || String.eqb result "loss")
  then (Raises (ValueError Result_must_be_win_or_loss), self, false)
  else
    let fights := Boxers.fights self + 1 in
    let wins :=
      if String.eqb result "win" then Boxers.wins self + 1
      else Boxers.wins self in
    if fights <? wins
    then (Raises (ValueError Wins_exceed_fights),
          set_counters self fights wins, false)
    else (Returns tt, set_counters self fights wins, true).

(** [compute_win_pct(b)] of [get_leaderboard]. *)
Definition compute_win_pct (b : Boxers.t) : Float64.float :=
  match Boxers.fights b with
  | Zpos fights =>
      Float64.round1
        (Float64.mul (Float64.truediv (Boxers.wins b) fights)
                     (Float64.of_int 100))
  | _ => S754_zero false
  end.

Module Entry.
Record t : Type := mk
  { id : Z; name : string; weight : Q; height : Q; reach : Q; age : Z;
    weight_class : string; fights : Z; wins : Z; win_pct : Float64.float }.
End Entry.

Definition entry_of (b : Boxers.t) : Entry.t :=
  Entry.mk (Boxers.id b) (Boxers.name b) (Boxers.weight b) (Boxers.height b)
           (Boxers.reach b) (Boxers.age b) (Boxers.weight_class b)
           (Boxers.fights b) (Boxers.wins b) (compute_win_pct b).

(** [Boxers.get_leaderboard(sort_by)] over the stored instances. *)
Definition get_leaderboard (stored : list Boxers.t) (sort_by : string)
  : outcome (list Entry.t) :=
  if negb (String.eqb sort_by "wins" || String.eqb sort_by "win_pct")
  then Raises (ValueError (Invalid_sort_by sort_by))
  else
    let boxers := filter (fun b => 0 <? Boxers.fights b) stored in
    let leaderboard := map entry_of boxers in
    Returns
      (if String.eqb sort_by "wins"
       then sort_desc Z.ltb Entry.wins leaderboard
       else sort_desc Float64.ltb Entry.win_pct leaderboard).

(** [Boxers.delete(boxer_id)]: the outcome and the instances the session
    holds afterwards.  The boxer is fetched with [get_boxer_by_id], whose
    exception for a missing boxer meets [except SQLAlchemyError] here once
    more, an unbound name again; [boxer is None] is never true, since the
    lookup raises instead of returning [None].  [db.session.delete(boxer)]
    and the commit delete the row of the boxer's primary key. *)
Definition delete (stored : list Boxers.t) (boxer_id : Z)
  : outcome unit * list Boxers.t :=
  match get_boxer_by_id stored boxer_id with
  | Raises _ => (Raises (NameError "SQLAlchemyError"), stored)
  | Returns boxer =>
      (Returns tt,
       filter (fun b => negb (Boxers.id b =? Boxers.id boxer)) stored)
  end.

End HW3.

(** ** The specification's percentage *)

Module Spec.

(** [round(100 * wins / fights, 1 decimal place)] on the exact quotient,
    the tie going to the even tenth. *)
Definition win_pct (wins fights : Z) : Float64.float :=
  Float64.of_tenths false (Float64.nearest_even (1000 * wins) fights).






End Spec.

(** ** The invariant of the counters *)

Definition within_fights (b : HW2.Row.t) : Prop :=
  0 <= HW2.Row.wins b <= HW2.Row.fights b.

(** ** A sample roster *)

Definition ali : HW2.Row.t := HW2.Row.mk 1 "Ali" 150 70 72 25 0 0.
Definition frazier : HW2.Row.t := HW2.Row.mk 2 "Frazier" 205 71 73 30 80 23.
Definition foreman : HW2.Row.t := HW2.Row.mk 3 "Foreman" 220 76 78 28 81 76.

(** The leaderboard example of the specification: wins 10, 20 and 5, and a
    boxer who has not fought. *)
Definition roster : list HW2.Row.t :=
  [ HW2.Row.mk 1 "Boxer A" 150 70 20.5 19 12 10;
    HW2.Row.mk 2 "Boxer B" 170 72 24 22 25 20;
    HW2.Row.mk 3 "Boxer C" 160 68 18 34 9 5;
    HW2.Row.mk 4 "Boxer D" 130 66 17 21 0 0 ].

(** ** A client of the sqlite module

    The calls a client can make, one after the other; a call that raises
    leaves the client with the database as the call left it. *)

Inductive call : Type :=
| Create_boxer (name : string) (weight height reach : Q) (age : Z)
| Delete_boxer (boxer_id : Z)
| Update_boxer_stats (boxer_id : Z) (result : string)
| Get_boxer_by_id (boxer_id : Z)
| Get_boxer_by_name (boxer_name : string)
| Get_leaderboard (sort_by : string).

Definition run_call (c : call) (d : HW2.db) : HW2.db :=
  match c with
  | Create_boxer name weight height reach age =>
      snd (HW2.create_boxer name weight height reach age d)
  | Delete_boxer boxer_id => snd (HW2.delete_boxer boxer_id d)
  | Update_boxer_stats boxer_id result =>
      snd (HW2.update_boxer_stats boxer_id result d)
  | Get_boxer_by_id boxer_id => snd (HW2.get_boxer_by_id boxer_id d)
  | Get_boxer_by_name boxer_name => snd (HW2.get_boxer_by_name boxer_name d)
  | Get_leaderboard sort_by => snd (HW2.get_leaderboard sort_by d)
  end.

Fixpoint run_calls (calls : list call) (d : HW2.db) : HW2.db :=
  match calls with
  | [] => d
  | c :: rest => run_calls rest (run_call c d)
  end.

(** The database before any call. *)
Definition empty_db : HW2.db := HW2.mk_db [] [].

(** What [create_boxer] asks of its arguments, and the counters in range. *)
Definition valid_row (b : HW2.Row.t) : Prop :=
  1 <= HW2.Row.id b /\
  (125 <= HW2.Row.weight b)%Q /\ (0 < HW2.Row.height b)%Q /\
  (0 < HW2.Row.reach b)%Q /\ 18 <= HW2.Row.age b <= 40 /\
  0 <= HW2.Row.wins b <= HW2.Row.fights b.

Definition well_formed (t : list HW2.Row.t) : Prop :=
  NoDup (map HW2.Row.id t) /\ NoDup (map HW2.Row.name t) /\ Forall valid_row t.




(** ** The helper of the test module, hw2/tests/test_boxer_model.py *)

Module Tests.



End Tests.

(** ** Shapes of strings *)





(** * Properties *)

(** ** Comparisons and lookups *)

Lemma Qle_bool_false (x y : Q) : Qle_bool x y = false <-> (y < x)%Q.
Proof.
  split; intro H.
  - apply Qnot_le_lt. intro L. apply Qle_bool_iff in L. congruence.
  - destruct (Qle_bool x y) eqn:E; trivial.
    apply Qle_bool_iff in E. now apply Qle_not_lt in E.
Qed.

Lemma Qlt_bool_iff (x y : Q) : Qlt_bool x y = true <-> (x < y)%Q.
Proof.
  unfold Qlt_bool. rewrite negb_true_iff. apply Qle_bool_false.
Qed.

Lemma Qlt_bool_false (x y : Q) : Qlt_bool x y = false <-> (y <= x)%Q.
Proof.
  unfold Qlt_bool. rewrite negb_false_iff. apply Qle_bool_iff.
Qed.

(** Turns every comparison the code made into the order fact it decided. *)
Ltac order_facts :=
  repeat match goal with
    | H : Qle_bool _ _ = true |- _ => apply Qle_bool_iff in H
    | H : Qle_bool _ _ = false |- _ => apply Qle_bool_false in H
    | H : Qlt_bool _ _ = true |- _ => apply Qlt_bool_iff in H
    | H : Qlt_bool _ _ = false |- _ => apply Qlt_bool_false in H
    end.

Ltac decide_order c :=
  let E := fresh "E" in destruct c eqn:E; order_facts; try lra.

(** ** The weight classes *)

(** C1.  [get_weight_class] follows the boundary table: HEAVYWEIGHT from 203,
    MIDDLEWEIGHT from 166 to below 203, LIGHTWEIGHT from 133 to below 166,
    FEATHERWEIGHT from 125 to below 133, and below 125 the [ValueError] of
    an invalid weight; every class includes its lower bound.  The class
    method of HW3 is the same function. *)
Theorem get_weight_class_table (w : Q) :
  ((203 <= w)%Q -> HW2.get_weight_class w = Returns "HEAVYWEIGHT") /\
  ((166 <= w < 203)%Q -> HW2.get_weight_class w = Returns "MIDDLEWEIGHT") /\
  ((133 <= w < 166)%Q -> HW2.get_weight_class w = Returns "LIGHTWEIGHT") /\
  ((125 <= w < 133)%Q -> HW2.get_weight_class w = Returns "FEATHERWEIGHT") /\
  ((w < 125)%Q ->
   HW2.get_weight_class w = Raises (ValueError (Weight_below_classes w)) /\
   error_kind_of (HW2.get_weight_class w) = Some ValidationError) /\
  HW3.get_weight_class w = HW2.get_weight_class w.
Proof.
  unfold HW2.get_weight_class, HW3.get_weight_class.
  repeat split; try intros [L U]; try intro L;
    decide_order (Qle_bool 203 w); decide_order (Qle_bool 166 w);
    decide_order (Qle_bool 133 w); decide_order (Qle_bool 125 w);
    reflexivity.
Qed.

Lemma get_weight_class_table_witness :
  (125 <= 132.99 < 133)%Q /\
  HW2.get_weight_class 132.99 = Returns "FEATHERWEIGHT".
Proof.
  assert (B : (125 <= 132.99 < 133)%Q) by (split; [discriminate | reflexivity]).
  split; [exact B | ].
  exact (proj1 (proj2 (proj2 (proj2 (get_weight_class_table 132.99)))) B).
Defined.

(** A class comes out exactly for the weights from 125 on. *)
Lemma get_weight_class_witnessed (w : Q) :
  ((w < 125)%Q -> HW2.get_weight_class w =
                  Raises (ValueError (Weight_below_classes w))) /\
  ((125 <= w)%Q -> exists c, HW2.get_weight_class w = Returns c).
Proof.
  unfold HW2.get_weight_class.
  split; intro L;
    decide_order (Qle_bool 203 w); decide_order (Qle_bool 166 w);
    decide_order (Qle_bool 133 w); decide_order (Qle_bool 125 w);
    eauto.
Qed.

(** The boundaries of the table, evaluated. *)
Example get_weight_class_boundaries :
  map HW2.get_weight_class [124; 125; 132.99; 133; 165.99; 166; 202.99; 203]%Q =
  [ Raises (ValueError (Weight_below_classes 124));
    Returns "FEATHERWEIGHT"; Returns "FEATHERWEIGHT";
    Returns "LIGHTWEIGHT"; Returns "LIGHTWEIGHT";
    Returns "MIDDLEWEIGHT"; Returns "MIDDLEWEIGHT";
    Returns "HEAVYWEIGHT" ].
Proof. reflexivity. Qed.

(** ** Runs of [update_boxer_stats] *)

Section Update_runs.

Import HW2.
Variable d : db.
Variable boxer_id : Z.

Lemma result_checked (result : string) :
  String.eqb result "win" || String.eqb result "loss" = false <->
  result <> "win" /\ result <> "loss".
Proof.
  rewrite orb_false_iff, !String.eqb_neq. tauto.
Qed.

(** A result that is neither 'win' nor 'loss' is refused on the spot. *)
Lemma update_refused (result : string) :
  result <> "win" -> result <> "loss" ->
  update_boxer_stats boxer_id result d =
  (Raises (ValueError (Invalid_result result)), d).
Proof.
  intros W L. unfold update_boxer_stats.
  now rewrite (proj2 (result_checked result) (conj W L)).
Qed.

(** With a valid result and no boxer of that id, one SELECT is all that
    happens. *)
Lemma update_missing (result : string) :
  result = "win" \/ result = "loss" ->
  find (has_id boxer_id) (boxers d) = None ->
  update_boxer_stats boxer_id result d =
  (Raises (ValueError (Id_not_found boxer_id)),
   mk_db (boxers d)
         (journal d ++ [Connect; Execute (SELECT_id_WHERE_id boxer_id)])).
Proof.
  intros V N.
  unfold update_boxer_stats, with_connection, select_id_where_id, bind, log,
    rows, ret, raise.
  destruct V as [-> | ->]; simpl; rewrite N; simpl;
    now rewrite <- app_assoc.
Qed.

Lemma update_win (b : Row.t) :
  find (has_id boxer_id) (boxers d) = Some b ->
  update_boxer_stats boxer_id "win" d =
  (Returns tt,
   mk_db (update_where_id boxer_id won (boxers d))
         (journal d ++ [Connect; Execute (SELECT_id_WHERE_id boxer_id);
                        Execute (UPDATE_fights_wins_WHERE_id boxer_id);
                        Commit])).
Proof.
  intro F.
  unfold update_boxer_stats, with_connection, select_id_where_id,
    update_fights_wins_where_id, commit, bind, log, rows, store, ret.
  simpl. rewrite F. simpl. now rewrite <- !app_assoc.
Qed.

Lemma update_loss (b : Row.t) :
  find (has_id boxer_id) (boxers d) = Some b ->
  update_boxer_stats boxer_id "loss" d =
  (Returns tt,
   mk_db (update_where_id boxer_id lost (boxers d))
         (journal d ++ [Connect; Execute (SELECT_id_WHERE_id boxer_id);
                        Execute (UPDATE_fights_WHERE_id boxer_id);
                        Commit])).
Proof.
  intro F.
  unfold update_boxer_stats, with_connection, select_id_where_id,
    update_fights_where_id, commit, bind, log, rows, store, ret.
  simpl. rewrite F. simpl. now rewrite <- !app_assoc.
Qed.

End Update_runs.

(** The UPDATE reaches the rows of the given id and no other row. *)
Lemma find_updated (i : Z) (f : HW2.Row.t -> HW2.Row.t) (t : list HW2.Row.t) :
  (forall r, HW2.Row.id (f r) = HW2.Row.id r) ->
  find (HW2.has_id i) (HW2.update_where_id i f t) =
  option_map f (find (HW2.has_id i) t).
Proof.
  intro Same. induction t as [ | r t IH]; simpl; trivial.
  destruct (HW2.has_id i r) eqn:E.
  - unfold HW2.has_id in *. now rewrite Same, E.
  - now rewrite E.
Qed.

Lemma find_not_updated (i j : Z) (f : HW2.Row.t -> HW2.Row.t) (t : list HW2.Row.t) :
  (forall r, HW2.Row.id (f r) = HW2.Row.id r) -> j <> i ->
  find (HW2.has_id j) (HW2.update_where_id i f t) = find (HW2.has_id j) t.
Proof.
  intros Same Other. induction t as [ | r t IH]; simpl; trivial.
  destruct (HW2.has_id i r) eqn:E.
  - unfold HW2.has_id in *. rewrite Same.
    apply Z.eqb_eq in E. rewrite E.
    now rewrite (proj2 (Z.eqb_neq i j) (not_eq_sym Other)).
  - now rewrite IH.
Qed.

(** C8.  A result other than 'win' and 'loss' makes [update_boxer_stats]
    raise the [ValueError] of an invalid result, a validation error, for
    every id, and the table, hence the fights and wins of every boxer, is
    what it was. *)
Theorem update_boxer_stats_rejects_result
    (d : HW2.db) (boxer_id : Z) (result : string) :
  result <> "win" -> result <> "loss" ->
  let run := HW2.update_boxer_stats boxer_id result d in
  fst run = Raises (ValueError (Invalid_result result)) /\
  error_kind_of (fst run) = Some ValidationError /\
  HW2.boxers (snd run) = HW2.boxers d.
Proof.
  intros W L run. subst run. rewrite (update_refused d boxer_id result W L).
  repeat split.
Qed.

Lemma update_boxer_stats_rejects_result_witness :
  let run := HW2.update_boxer_stats 1 "draw" (HW2.mk_db [ali] []) in
  fst run = Raises (ValueError (Invalid_result "draw")) /\
  error_kind_of (fst run) = Some ValidationError /\
  HW2.boxers (snd run) = [ali].
Proof.
  apply (update_boxer_stats_rejects_result (HW2.mk_db [ali] []) 1 "draw");
    discriminate.
Defined.

(** C10.  The result is checked before the boxer is looked up.  For an id
    that no row has, an invalid result raises the [ValueError] of the
    result, not the one of the missing boxer, and the journal of the
    database is untouched: no connection, no statement.  A valid result on
    the same id gets as far as the SELECT and raises the not-found error. *)
Theorem update_boxer_stats_checks_result_first
    (d : HW2.db) (boxer_id : Z) (result : string) :
  find (HW2.has_id boxer_id) (HW2.boxers d) = None ->
  (result <> "win" -> result <> "loss" ->
   let run := HW2.update_boxer_stats boxer_id result d in
   fst run = Raises (ValueError (Invalid_result result)) /\
   error_kind_of (fst run) = Some ValidationError /\
   fst run <> Raises (ValueError (Id_not_found boxer_id)) /\
   HW2.journal (snd run) = HW2.journal d /\
   snd run = d) /\
  (result = "win" \/ result = "loss" ->
   let run := HW2.update_boxer_stats boxer_id result d in
   fst run = Raises (ValueError (Id_not_found boxer_id)) /\
   error_kind_of (fst run) = Some NotFoundError /\
   HW2.journal (snd run) =
   HW2.journal d ++
   [HW2.Connect; HW2.Execute (HW2.SELECT_id_WHERE_id boxer_id)]).
Proof.
  intro Missing. split.
  - intros W L run. subst run. rewrite (update_refused d boxer_id result W L).
    repeat split. discriminate.
  - intros V run. subst run. rewrite (update_missing d boxer_id result V Missing).
    repeat split.
Qed.

Lemma update_boxer_stats_checks_result_first_witness :
  find (HW2.has_id 999) [ali] = None /\
  let run := HW2.update_boxer_stats 999 "draw" (HW2.mk_db [ali] []) in
  fst run = Raises (ValueError (Invalid_result "draw")) /\
  HW2.journal (snd run) = [].
Proof.
  split; [reflexivity | ].
  destruct (update_boxer_stats_checks_result_first
              (HW2.mk_db [ali] []) 999 "draw" eq_refl) as [Invalid _].
  destruct Invalid as (R & _ & _ & J & _); [discriminate | discriminate | ].
  split; [exact R | exact J].
Defined.

(** C2.  On the row of an existing boxer, [update_boxer_stats] with 'win' or
    'loss' returns and leaves fights one higher; wins is one higher exactly
    when the result is 'win' and unchanged exactly when it is 'loss'; the
    rows of the other ids are as before.  A win and then a loss on a boxer
    with no fights leave fights = 2 and wins = 1. *)
Theorem update_boxer_stats_counts (d : HW2.db) (boxer_id : Z) (b : HW2.Row.t) :
  find (HW2.has_id boxer_id) (HW2.boxers d) = Some b ->
  (forall result, result = "win" \/ result = "loss" ->
     let run := HW2.update_boxer_stats boxer_id result d in
     fst run = Returns tt /\
     (exists b',
        find (HW2.has_id boxer_id) (HW2.boxers (snd run)) = Some b' /\
        HW2.Row.id b' = HW2.Row.id b /\
        HW2.Row.name b' = HW2.Row.name b /\
        HW2.Row.fights b' = HW2.Row.fights b + 1 /\
        (HW2.Row.wins b' = HW2.Row.wins b + 1 <-> result = "win") /\
        (HW2.Row.wins b' = HW2.Row.wins b <-> result = "loss")) /\
     (forall other, other <> boxer_id ->
        find (HW2.has_id other) (HW2.boxers (snd run)) =
        find (HW2.has_id other) (HW2.boxers d))) /\
  (HW2.Row.fights b = 0 -> HW2.Row.wins b = 0 ->
   let won := HW2.update_boxer_stats boxer_id "win" d in
   let lost := HW2.update_boxer_stats boxer_id "loss" (snd won) in
   fst won = Returns tt /\ fst lost = Returns tt /\
   exists b'',
     find (HW2.has_id boxer_id) (HW2.boxers (snd lost)) = Some b'' /\
     HW2.Row.fights b'' = 2 /\ HW2.Row.wins b'' = 1).
Proof.
  intro Found. split.
  - intros result [-> | ->] run; subst run.
    + rewrite (update_win d boxer_id b Found). simpl. split; [reflexivity | ].
      split.
      * exists (HW2.won b). rewrite find_updated, Found by reflexivity. simpl.
        repeat split; try discriminate; try lia.
      * intros other O. now apply find_not_updated.
    + rewrite (update_loss d boxer_id b Found). simpl. split; [reflexivity | ].
      split.
      * exists (HW2.lost b). rewrite find_updated, Found by reflexivity. simpl.
        repeat split; try discriminate; try lia.
      * intros other O. now apply find_not_updated.
  - intros F0 W0 won lost. subst lost won.
    rewrite (update_win d boxer_id b Found). simpl.
    assert (Found' :
              find (HW2.has_id boxer_id)
                (HW2.update_where_id boxer_id HW2.won (HW2.boxers d)) =
              Some (HW2.won b))
      by (rewrite find_updated, Found by reflexivity; reflexivity).
    rewrite (update_loss (HW2.mk_db _ _) boxer_id (HW2.won b) Found'). simpl.
    repeat split.
    exists (HW2.lost (HW2.won b)).
    rewrite find_updated, Found' by reflexivity. simpl.
    rewrite F0, W0. repeat split.
Qed.

Lemma update_boxer_stats_counts_witness :
  find (HW2.has_id 1) [ali] = Some ali /\
  let won := HW2.update_boxer_stats 1 "win" (HW2.mk_db [ali] []) in
  let lost := HW2.update_boxer_stats 1 "loss" (snd won) in
  fst won = Returns tt /\ fst lost = Returns tt /\
  exists b'',
    find (HW2.has_id 1) (HW2.boxers (snd lost)) = Some b'' /\
    HW2.Row.fights b'' = 2 /\ HW2.Row.wins b'' = 1.
Proof.
  split; [reflexivity | ].
  apply (update_boxer_stats_counts (HW2.mk_db [ali] []) 1 ali eq_refl);
    reflexivity.
Defined.

(** ** The counters over a sequence of results *)

(** Whatever the arguments, a call leaves the table alone or applies one of
    the two UPDATEs to it. *)
Lemma update_boxer_stats_table (d : HW2.db) (boxer_id : Z) (result : string) :
  let t := HW2.boxers (snd (HW2.update_boxer_stats boxer_id result d)) in
  t = HW2.boxers d \/
  t = HW2.update_where_id boxer_id HW2.won (HW2.boxers d) \/
  t = HW2.update_where_id boxer_id HW2.lost (HW2.boxers d).
Proof.
  destruct (string_dec result "win") as [-> | W];
    [ | destruct (string_dec result "loss") as [-> | L]].
  - destruct (find (HW2.has_id boxer_id) (HW2.boxers d)) as [b | ] eqn:F.
    + rewrite (update_win d boxer_id b F). right. now left.
    + rewrite (update_missing d boxer_id "win" (or_introl eq_refl) F). now left.
  - destruct (find (HW2.has_id boxer_id) (HW2.boxers d)) as [b | ] eqn:F.
    + rewrite (update_loss d boxer_id b F). right. now right.
    + rewrite (update_missing d boxer_id "loss" (or_intror eq_refl) F). now left.
  - rewrite (update_refused d boxer_id result W L). now left.
Qed.

Lemma update_where_id_within (i : Z) (f : HW2.Row.t -> HW2.Row.t)
    (t : list HW2.Row.t) (n : nat) (b : HW2.Row.t) :
  (forall r, HW2.Row.id (f r) = HW2.Row.id r) ->
  (forall r, within_fights r -> within_fights (f r)) ->
  nth_error t n = Some b -> within_fights b ->
  exists b', nth_error (HW2.update_where_id i f t) n = Some b' /\
             HW2.Row.id b' = HW2.Row.id b /\ within_fights b'.
Proof.
  intros Same Keeps Nth Inv. unfold HW2.update_where_id.
  rewrite nth_error_map, Nth. simpl.
  destruct (HW2.has_id i b); eauto.
Qed.

Lemma update_boxer_stats_within (d : HW2.db) (boxer_id : Z) (result : string)
    (n : nat) (b : HW2.Row.t) :
  nth_error (HW2.boxers d) n = Some b -> within_fights b ->
  exists b',
    nth_error (HW2.boxers (snd (HW2.update_boxer_stats boxer_id result d))) n =
    Some b' /\
    HW2.Row.id b' = HW2.Row.id b /\ within_fights b'.
Proof.
  intros Nth Inv.
  destruct (update_boxer_stats_table d boxer_id result) as [-> | [-> | ->]].
  - eauto.
  - apply update_where_id_within; trivial.
    unfold within_fights. simpl. intros; lia.
  - apply update_where_id_within; trivial.
    unfold within_fights. simpl. intros; lia.
Qed.

Lemma update_all_within (calls : list (Z * string)) :
  forall (d : HW2.db) (n : nat) (b : HW2.Row.t),
    nth_error (HW2.boxers d) n = Some b -> within_fights b ->
    exists b',
      nth_error (HW2.boxers (HW2.update_all calls d)) n = Some b' /\
      HW2.Row.id b' = HW2.Row.id b /\ within_fights b'.
Proof.
  induction calls as [ | [boxer_id result] calls IH]; intros d n b Nth Inv.
  - simpl. eauto.
  - simpl.
    destruct (update_boxer_stats_within d boxer_id result n b Nth Inv)
      as (b1 & Nth1 & Id1 & Inv1).
    destruct (IH _ n b1 Nth1 Inv1) as (b' & Nth' & Id' & Inv').
    exists b'. repeat split; try apply Inv'; congruence.
Qed.

(** C3.  A row that starts with fights = 0 and wins = 0 has wins <= fights
    after every sequence of [update_boxer_stats] calls, whatever their ids
    and results and whether they return or raise: the bound holds after
    every prefix of the sequence, that is after every single call. *)
Theorem wins_never_exceed_fights
    (d : HW2.db) (n : nat) (b : HW2.Row.t) (calls : list (Z * string)) :
  nth_error (HW2.boxers d) n = Some b ->
  HW2.Row.fights b = 0 -> HW2.Row.wins b = 0 ->
  forall k : nat,
  exists b',
    nth_error (HW2.boxers (HW2.update_all (firstn k calls) d)) n = Some b' /\
    HW2.Row.id b' = HW2.Row.id b /\
    HW2.Row.wins b' <= HW2.Row.fights b'.
Proof.
  intros Nth F0 W0 k.
  destruct (update_all_within (firstn k calls) d n b Nth) as (b' & N' & I' & V').
  - unfold within_fights. lia.
  - exists b'. repeat split; trivial. apply V'.
Qed.

Lemma wins_never_exceed_fights_witness :
  exists b',
    nth_error
      (HW2.boxers
         (HW2.update_all
            (firstn 3 [(1, "win"); (1, "draw"); (1, "loss"); (2, "win")])
            (HW2.mk_db [ali] []))) 0 = Some b' /\
    HW2.Row.id b' = 1 /\
    HW2.Row.wins b' <= HW2.Row.fights b'.
Proof.
  exact (wins_never_exceed_fights (HW2.mk_db [ali] []) 0 ali
           [(1, "win"); (1, "draw"); (1, "loss"); (2, "win")]
           eq_refl eq_refl eq_refl 3%nat).
Defined.

(** ** Runs of [create_boxer] *)

Lemma find_none_iff {A} (f : A -> bool) (l : list A) :
  find f l = None <-> forall x, In x l -> f x = false.
Proof.
  split; [apply find_none | ].
  induction l as [ | a l IH]; simpl; intro H; trivial.
  rewrite (H a (or_introl eq_refl)). apply IH. intros x I. apply H. now right.
Qed.

Lemma existsb_find {A} (f : A -> bool) (l : list A) :
  existsb f l = match find f l with Some _ => true | None => false end.
Proof.
  induction l as [ | a l IH]; simpl; trivial.
  now destruct (f a).
Qed.

Section Create_runs.

Import HW2.
Variable d : db.
Variable others : list Row.t -> list Row.t.
Variable name : string.
Variables weight height reach : Q.
Variable age : Z.

Let run := create_boxer_meanwhile others name weight height reach age d.

Lemma create_weight : (weight < 125)%Q ->
  run = (Raises (ValueError (Invalid_weight weight)), d).
Proof.
  intro V. unfold run, create_boxer_meanwhile.
  now rewrite (proj2 (Qlt_bool_iff _ _) V).
Qed.

Lemma create_height : (125 <= weight)%Q -> (height <= 0)%Q ->
  run = (Raises (ValueError (Invalid_height height)), d).
Proof.
  intros W V. unfold run, create_boxer_meanwhile.
  now rewrite (proj2 (Qlt_bool_false _ _) W), (proj2 (Qle_bool_iff _ _) V).
Qed.

Lemma create_reach : (125 <= weight)%Q -> (0 < height)%Q -> (reach <= 0)%Q ->
  run = (Raises (ValueError (Invalid_reach reach)), d).
Proof.
  intros W H V. unfold run, create_boxer_meanwhile.
  now rewrite (proj2 (Qlt_bool_false _ _) W), (proj2 (Qle_bool_false _ _) H),
    (proj2 (Qle_bool_iff _ _) V).
Qed.

Lemma create_age :
  (125 <= weight)%Q -> (0 < height)%Q -> (0 < reach)%Q ->
  age < 18 \/ 40 < age ->
  run = (Raises (ValueError (Invalid_age age)), d).
Proof.
  intros W H R V. unfold run, create_boxer_meanwhile.
  rewrite (proj2 (Qlt_bool_false _ _) W), (proj2 (Qle_bool_false _ _) H),
    (proj2 (Qle_bool_false _ _) R).
  replace ((18 <=? age) && (age <=? 40)) with false; trivial.
  symmetry. apply andb_false_iff. rewrite Z.leb_gt, Z.leb_gt. tauto.
Qed.

Hypothesis weight_ok : (125 <= weight)%Q.
Hypothesis height_ok : (0 < height)%Q.
Hypothesis reach_ok : (0 < reach)%Q.
Hypothesis age_ok : 18 <= age <= 40.

Lemma create_checks_passed :
  run =
  try_except
    (with_connection
       (found <- select_1_where_name name ;;
        match found with
        | Some _ => raise (ValueError (Name_already_exists name))
        | None =>
            meanwhile others ;;;
            insert_into_boxers name weight height reach age ;;;
            commit
        end))
    (fun e =>
       match e with
       | IntegrityError => raise (ValueError (Name_already_exists name))
       | _ => raise e
       end) d.
Proof.
  unfold run, create_boxer_meanwhile.
  rewrite (proj2 (Qlt_bool_false _ _) weight_ok),
    (proj2 (Qle_bool_false _ _) height_ok),
    (proj2 (Qle_bool_false _ _) reach_ok).
  replace ((18 <=? age) && (age <=? 40)) with true; trivial.
  symmetry. apply andb_true_iff. rewrite !Z.leb_le. lia.
Qed.

(** The name is taken: the SELECT finds it and nothing is inserted. *)
Lemma create_name_taken (b : Row.t) :
  find (has_name name) (boxers d) = Some b ->
  run =
  (Raises (ValueError (Name_already_exists name)),
   mk_db (boxers d)
         (journal d ++ [Connect; Execute (SELECT_1_WHERE_name name)])).
Proof.
  intro F. rewrite create_checks_passed.
  unfold try_except, with_connection, select_1_where_name, bind, log, rows,
    ret, raise.
  simpl. rewrite F. simpl. now rewrite <- app_assoc.
Qed.


(** The name is free: SELECT, INSERT and commit, in this order. *)
Lemma create_name_free :
  find (has_name name) (boxers d) = None ->
  existsb (has_name name) (others (boxers d)) = false ->
  run =
  (Returns tt,
   mk_db (others (boxers d) ++
          [Row.mk (next_id (others (boxers d)))
                  name weight height reach age 0 0])
         (journal d ++
          [Connect; Execute (SELECT_1_WHERE_name name);
           Execute (INSERT_INTO_boxers name weight height reach age);
           Commit])).
Proof.
  intros F T. rewrite create_checks_passed.
  unfold try_except, with_connection, select_1_where_name, meanwhile,
    insert_into_boxers, commit, bind, log, rows, store, ret, raise.
  simpl. rewrite F. simpl. rewrite T. simpl. now rewrite <- !app_assoc.
Qed.

End Create_runs.

(** ** The constructor and the lookups of HW3 *)

(** The constructor of HW3 makes the four numeric checks of hw2 in the same
    order and then a fifth, on the name. *)
Lemma HW3_constructor_checks
    (self_name : option string) (name : string)
    (weight height reach : Q) (age : Z) :
  let made := HW3.__init__ self_name name weight height reach age in
  ((weight < 125)%Q -> made = Raises (ValueError (Invalid_weight weight))) /\
  ((125 <= weight)%Q -> (height <= 0)%Q ->
   made = Raises (ValueError (Invalid_height height))) /\
  ((125 <= weight)%Q -> (0 < height)%Q -> (reach <= 0)%Q ->
   made = Raises (ValueError (Invalid_reach reach))) /\
  ((125 <= weight)%Q -> (0 < height)%Q -> (0 < reach)%Q ->
   age < 18 \/ 40 < age ->
   made = Raises (ValueError (Invalid_age age))) /\
  ((125 <= weight)%Q -> (0 < height)%Q -> (0 < reach)%Q -> 18 <= age <= 40 ->
   self_name = None \/ self_name = Some "" ->
   made = Raises (ValueError Name_must_be_non_empty)).
Proof.
  intro made. subst made. unfold HW3.__init__.
  split; [ | split; [ | split; [ | split]]].
  - intro W. now rewrite (proj2 (Qlt_bool_iff _ _) W).
  - intros W H.
    now rewrite (proj2 (Qlt_bool_false _ _) W), (proj2 (Qle_bool_iff _ _) H).
  - intros W H R.
    now rewrite (proj2 (Qlt_bool_false _ _) W), (proj2 (Qle_bool_false _ _) H),
      (proj2 (Qle_bool_iff _ _) R).
  - intros W H R A.
    rewrite (proj2 (Qlt_bool_false _ _) W), (proj2 (Qle_bool_false _ _) H),
      (proj2 (Qle_bool_false _ _) R).
    replace ((18 <=? age) && (age <=? 40)) with false; trivial.
    symmetry. apply andb_false_iff. rewrite !Z.leb_gt. tauto.
  - intros W H R A Unset.
    rewrite (proj2 (Qlt_bool_false _ _) W), (proj2 (Qle_bool_false _ _) H),
      (proj2 (Qle_bool_false _ _) R).
    replace ((18 <=? age) && (age <=? 40)) with true.
    + now destruct Unset as [-> | ->].
    + symmetry. apply andb_true_iff. rewrite !Z.leb_le. lia.
Qed.

(** [self.name] is read before it is assigned, so with numbers in range
    [create_boxer] of HW3 raises the name error for every name, the empty
    one among them, and reaches neither its duplicate check nor the
    session. *)
Lemma HW3_create_boxer_rejects_every_name
    (name : string) (weight height reach : Q) (age : Z) :
  (125 <= weight)%Q -> (0 < height)%Q -> (0 < reach)%Q -> 18 <= age <= 40 ->
  HW3.create_boxer name weight height reach age =
  Raises (ValueError Name_must_be_non_empty).
Proof.
  intros W H R A. unfold HW3.create_boxer, HW3.Boxers.
  now rewrite (proj2 (proj2 (proj2 (proj2
                (HW3_constructor_checks None (strip name)
                   weight height reach age)))) W H R A (or_introl eq_refl)).
Qed.


(** A lookup of HW3 that finds nothing: the [ValueError] it raises meets a
    handler whose class is an unbound name. *)
Lemma HW3_lookups_missing (stored : list HW3.Boxers.t) :
  (forall boxer_id,
     (forall b, In b stored -> HW3.Boxers.id b <> boxer_id) ->
     HW3.get_boxer_by_id stored boxer_id = Raises (NameError "SQLAlchemyError")) /\
  (forall name,
     (forall b, In b stored -> HW3.Boxers.name b <> strip name) ->
     HW3.get_boxer_by_name stored name = Raises (NameError "SQLAlchemyError")).
Proof.
  split.
  - intros boxer_id Missing. unfold HW3.get_boxer_by_id.
    replace (find (fun b => HW3.Boxers.id b =? boxer_id) stored)
      with (@None HW3.Boxers.t); trivial.
    symmetry. apply find_none_iff. intros b I. apply Z.eqb_neq.
    now apply Missing.
  - intros name Missing. unfold HW3.get_boxer_by_name.
    replace (find (fun b => String.eqb (HW3.Boxers.name b) (strip name)) stored)
      with (@None HW3.Boxers.t); trivial.
    symmetry. apply find_none_iff. intros b I. apply String.eqb_neq.
    now apply Missing.
Qed.

(** ** Validation in [create_boxer] *)




(** ** Duplicate names in [create_boxer] *)




(** ** Lookups *)

Lemma get_boxer_by_id_run (d : HW2.db) (boxer_id : Z) :
  HW2.get_boxer_by_id boxer_id d =
  (match find (HW2.has_id boxer_id) (HW2.boxers d) with
   | Some r => HW2.Boxer_of_row r
   | None => Raises (ValueError (Id_not_found boxer_id))
   end,
   HW2.mk_db (HW2.boxers d)
     (HW2.journal d ++
      [HW2.Connect; HW2.Execute (HW2.SELECT_boxer_WHERE_id boxer_id)])).
Proof.
  unfold HW2.get_boxer_by_id, HW2.with_connection, HW2.select_boxer_where_id,
    HW2.bind, HW2.log, HW2.rows, HW2.ret, HW2.raise, HW2.lift.
  simpl. rewrite <- app_assoc.
  now destruct (find (HW2.has_id boxer_id) (HW2.boxers d)).
Qed.

Lemma get_boxer_by_name_run (d : HW2.db) (boxer_name : string) :
  HW2.get_boxer_by_name boxer_name d =
  (match find (HW2.has_name boxer_name) (HW2.boxers d) with
   | Some r => HW2.Boxer_of_row r
   | None => Raises (ValueError (Name_not_found boxer_name))
   end,
   HW2.mk_db (HW2.boxers d)
     (HW2.journal d ++
      [HW2.Connect; HW2.Execute (HW2.SELECT_boxer_WHERE_name boxer_name)])).
Proof.
  unfold HW2.get_boxer_by_name, HW2.with_connection,
    HW2.select_boxer_where_name,
    HW2.bind, HW2.log, HW2.rows, HW2.ret, HW2.raise, HW2.lift.
  simpl. rewrite <- app_assoc.
  now destruct (find (HW2.has_name boxer_name) (HW2.boxers d)).
Qed.




(** ** The descending sort *)

Section Descending_facts.

Context {A K : Type}.
Variable ltb : K -> K -> bool.
Variable key : A -> K.
Hypothesis ltb_asym : forall x y, ltb x y = true -> ltb y x = false.

Lemma insert_desc_perm (x : A) (l : list A) :
  Permutation (insert_desc ltb key x l) (x :: l).
Proof.
  induction l as [ | y l IH]; simpl; trivial.
  destruct (ltb (key x) (key y)); trivial.
  rewrite IH. apply perm_swap.
Qed.

Lemma sort_desc_perm (l : list A) : Permutation (sort_desc ltb key l) l.
Proof.
  induction l as [ | x l IH]; simpl; trivial.
  rewrite insert_desc_perm. now apply perm_skip.
Qed.

Lemma insert_desc_head (x y : A) (l : list A) :
  ltb (key y) (key x) = false ->
  HdRel (fun a b => ltb (key a) (key b) = false) y l ->
  HdRel (fun a b => ltb (key a) (key b) = false) y (insert_desc ltb key x l).
Proof.
  intros Hx Hl. destruct l as [ | z l]; simpl.
  - now constructor.
  - destruct (ltb (key x) (key z)); constructor; trivial.
    now inversion Hl.
Qed.

Lemma insert_desc_sorted (x : A) (l : list A) :
  descending ltb key l -> descending ltb key (insert_desc ltb key x l).
Proof.
  unfold descending. induction 1 as [ | y l S IH H]; simpl.
  - repeat constructor.
  - destruct (ltb (key x) (key y)) eqn:E.
    + constructor; trivial. apply insert_desc_head; trivial.
      now apply ltb_asym.
    + constructor; [now constructor | now constructor].
Qed.

Lemma sort_desc_sorted (l : list A) : descending ltb key (sort_desc ltb key l).
Proof.
  induction l as [ | x l IH]; simpl.
  - constructor.
  - now apply insert_desc_sorted.
Qed.

End Descending_facts.

Lemma Zltb_asym (x y : Z) : (x <? y) = true -> (y <? x) = false.
Proof. lia. Qed.

(** The comparison of binary64 values turns around with its arguments. *)
Lemma SFcompare_antisym (x y : spec_float) (c : comparison) :
  SFcompare x y = Some c -> SFcompare y x = Some (CompOpp c).
Proof.
  destruct x as [sx | sx | | sx mx ex], y as [sy | sy | | sy my ey]; simpl;
    try discriminate;
    try (destruct sx; try destruct sy; intro E; injection E as <-; reflexivity);
    try (destruct sy; intro E; injection E as <-; reflexivity).
  assert (M : Pos.compare_cont Eq my mx = CompOpp (Pos.compare_cont Eq mx my))
    by (rewrite Pos.compare_cont_antisym; reflexivity).
  rewrite (Z.compare_antisym ex ey), M.
  destruct sx, sy, (ex ?= ey), (Pos.compare_cont Eq mx my);
    intro E; injection E as <-; reflexivity.
Qed.

Lemma Float64_ltb_asym (x y : Float64.float) :
  Float64.ltb x y = true -> Float64.ltb y x = false.
Proof.
  unfold Float64.ltb, SFltb.
  destruct (SFcompare x y) as [[ | | ] | ] eqn:E; try discriminate.
  now rewrite (SFcompare_antisym x y Lt E).
Qed.

(** ** The leaderboard *)

Lemma get_leaderboard_run (d : HW2.db) (sort_by : string) (o : HW2.order_by) :
  sort_by = "win_pct" /\ o = HW2.ORDER_BY_win_pct_DESC \/
  sort_by = "wins" /\ o = HW2.ORDER_BY_wins_DESC ->
  HW2.get_leaderboard sort_by d =
  (HW2.entries
     (HW2.ordered o (HW2.with_win_pct (HW2.where_fights (HW2.boxers d)))),
   HW2.mk_db (HW2.boxers d)
     (HW2.journal d ++ [HW2.Connect; HW2.Execute (HW2.SELECT_leaderboard o)])).
Proof.
  intros [[-> ->] | [-> ->]];
    unfold HW2.get_leaderboard, HW2.with_connection, HW2.select_leaderboard,
      HW2.bind, HW2.log, HW2.rows, HW2.ret, HW2.lift;
    simpl; now rewrite <- app_assoc.
Qed.

Lemma get_leaderboard_refuses (d : HW2.db) (sort_by : string) :
  sort_by <> "win_pct" -> sort_by <> "wins" ->
  HW2.get_leaderboard sort_by d =
  (Raises (ValueError (Invalid_sort_by sort_by)), d).
Proof.
  intros P W. unfold HW2.get_leaderboard, HW2.bind, HW2.raise.
  now rewrite (proj2 (String.eqb_neq _ _) P), (proj2 (String.eqb_neq _ _) W).
Qed.

Lemma entries_Forall2 (fetched : list (HW2.Row.t * Float64.float)) :
  forall leaderboard,
    HW2.entries fetched = Returns leaderboard <->
    Forall2 (fun row e => HW2.entry_of row = Returns e) fetched leaderboard.
Proof.
  induction fetched as [ | row rest IH]; intro leaderboard; simpl.
  - split.
    + intro E. injection E as <-. constructor.
    + intro F. now inversion F.
  - destruct (HW2.entry_of row) as [e | x] eqn:E.
    + destruct (HW2.entries rest) as [l | x'].
      * split.
        -- intro R. injection R as <-. constructor; trivial. now apply IH.
        -- intro F. inversion F as [ | ? e' ? l' He Hl]; subst.
           apply IH in Hl. congruence.
      * split; [discriminate | ].
        intro F. inversion F as [ | ? e' ? l' He Hl]; subst.
        apply IH in Hl. discriminate.
    + split; [discriminate | ].
      intro F. inversion F; subst. congruence.
Qed.

Lemma entry_of_returns (row : HW2.Row.t * Float64.float) :
  (125 <= HW2.Row.weight (fst row))%Q -> exists e, HW2.entry_of row = Returns e.
Proof.
  intro W. unfold HW2.entry_of.
  destruct (proj2 (get_weight_class_witnessed (HW2.Row.weight (fst row))) W)
    as [c ->].
  eauto.
Qed.

Lemma entries_return (fetched : list (HW2.Row.t * Float64.float)) :
  Forall (fun row => (125 <= HW2.Row.weight (fst row))%Q) fetched ->
  exists leaderboard, HW2.entries fetched = Returns leaderboard.
Proof.
  induction 1 as [ | row rest W _ [l IH]]; simpl.
  - eauto.
  - destruct (entry_of_returns row W) as [e ->]. rewrite IH. eauto.
Qed.

Lemma Sorted_Forall2 {A B} (R : A -> B -> Prop)
    (P : A -> A -> Prop) (Q : B -> B -> Prop) :
  (forall a a' b b', R a b -> R a' b' -> P a a' -> Q b b') ->
  forall l l', Forall2 R l l' -> Sorted P l -> Sorted Q l'.
Proof.
  intro Transfer. induction 1 as [ | a b l l' Rab F IH]; intro S.
  - constructor.
  - inversion S as [ | ? ? S' H]; subst. constructor; [now apply IH | ].
    destruct F as [ | a' b' l l' Rab' F]; constructor.
    inversion H; subst. eauto.
Qed.

Lemma entry_of_fields (row : HW2.Row.t * Float64.float) (e : HW2.Entry.t) :
  HW2.entry_of row = Returns e ->
  HW2.Entry.id e = HW2.Row.id (fst row) /\
  HW2.Entry.fights e = HW2.Row.fights (fst row) /\
  HW2.Entry.wins e = HW2.Row.wins (fst row) /\
  HW2.Entry.win_pct e =
  Float64.round1 (Float64.mul (snd row) (Float64.of_int 100)).
Proof.
  unfold HW2.entry_of.
  destruct (HW2.get_weight_class (HW2.Row.weight (fst row))); [ | discriminate].
  intro E. injection E as <-. repeat split.
Qed.

(** What [fetchall] hands over: the rows with fights > 0, each with its
    ratio, in some order. *)
Lemma fetched_rows (o : HW2.order_by) (t : list HW2.Row.t) :
  let fetched := HW2.ordered o (HW2.with_win_pct (HW2.where_fights t)) in
  Permutation (map fst fetched) (HW2.where_fights t) /\
  Forall (fun row => snd row = HW2.sql_win_pct (fst row) /\
                     In (fst row) t /\ 0 < HW2.Row.fights (fst row)) fetched.
Proof.
  intro fetched.
  assert (P : Permutation fetched (HW2.with_win_pct (HW2.where_fights t)))
    by (destruct o; apply sort_desc_perm).
  split.
  - rewrite (Permutation_map fst P). unfold HW2.with_win_pct.
    rewrite map_map. simpl. now rewrite map_id.
  - apply Forall_forall. intros row I.
    apply (Permutation_in _ P) in I. unfold HW2.with_win_pct in I.
    apply in_map_iff in I. destruct I as (b & <- & I).
    apply filter_In in I. simpl. rewrite Z.ltb_lt in I. tauto.
Qed.


Lemma ordered_descending (o : HW2.order_by)
    (selected : list (HW2.Row.t * Float64.float)) :
  match o with
  | HW2.ORDER_BY_wins_DESC =>
      descending Z.ltb (fun c => HW2.Row.wins (fst c)) (HW2.ordered o selected)
  | HW2.ORDER_BY_win_pct_DESC =>
      descending Float64.ltb snd (HW2.ordered o selected)
  end.
Proof.
  destruct o; simpl.
  - apply sort_desc_sorted, Float64_ltb_asym.
  - apply sort_desc_sorted, Zltb_asym.
Qed.





(** The example of the specification, evaluated: by wins the order is 20,
    10, 5, by percentage 83.3, 80.0, 55.6, and the boxer without fights is
    in neither list. *)
Example get_leaderboard_roster :
  let d := HW2.mk_db roster [] in
  match fst (HW2.get_leaderboard "wins" d),
        fst (HW2.get_leaderboard "win_pct" d) with
  | Returns by_wins, Returns by_pct =>
      map HW2.Entry.wins by_wins = [20; 10; 5] /\
      map HW2.Entry.id by_wins = [2; 1; 3] /\
      map HW2.Entry.id by_pct = [1; 2; 3] /\
      map HW2.Entry.win_pct by_pct =
      map (Float64.of_tenths false) [833; 800; 556]
  | _, _ => False
  end.
Proof. vm_compute. repeat split. Qed.

(** ** The percentage of a leaderboard row *)


(** The example of the specification, evaluated: a win and a loss make
    50.0, here as in the claim. *)
Example win_pct_of_1_in_2 :
  Float64.round1 (Float64.mul (HW2.win_ratio 1 2) (Float64.of_int 100)) =
  Float64.of_tenths false 500 /\
  Spec.win_pct 1 2 = Float64.of_tenths false 500 /\
  Float64.of_tenths false 500 = Float64.of_int 50.
Proof. vm_compute. repeat split. Qed.







(** ** Stored weights *)

(** Every call of [create_boxer] leaves a table whose weights are at least
    125 when they were before, and so do the other calls that write: what
    the leaderboard theorem asks of the boxers that have fought holds of
    every boxer the module has stored. *)
Lemma create_boxer_keeps_weights
    (d : HW2.db) (name : string) (weight height reach : Q) (age : Z) :
  Forall (fun b => (125 <= HW2.Row.weight b)%Q) (HW2.boxers d) ->
  Forall (fun b => (125 <= HW2.Row.weight b)%Q)
    (HW2.boxers (snd (HW2.create_boxer name weight height reach age d))).
Proof.
  intro Kept. unfold HW2.create_boxer.
  destruct (Qlt_le_dec weight 125) as [W | W];
    [now rewrite create_weight | ].
  destruct (Qlt_le_dec 0 height) as [H | H];
    [ | now rewrite create_height].
  destruct (Qlt_le_dec 0 reach) as [R | R];
    [ | now rewrite create_reach].
  destruct (Z_lt_le_dec age 18) as [A | A];
    [rewrite create_age; trivial; lia | ].
  destruct (Z_lt_le_dec 40 age) as [A' | A'];
    [rewrite create_age; trivial; lia | ].
  destruct (find (HW2.has_name name) (HW2.boxers d)) as [b | ] eqn:F.
  - rewrite (create_name_taken d _ name weight height reach age W H R
               (conj A A') b F). exact Kept.
  - rewrite (create_name_free d _ name weight height reach age W H R
               (conj A A') F).
    + simpl. apply Forall_app. split; trivial. now repeat constructor.
    + now rewrite existsb_find, F.
Qed.

(** A call of [create_boxer] that returns has added one row, with the
    arguments of the call and no fights and no wins. *)
Lemma create_boxer_returns
    (d : HW2.db) (name : string) (weight height reach : Q) (age : Z) :
  fst (HW2.create_boxer name weight height reach age d) = Returns tt ->
  HW2.boxers (snd (HW2.create_boxer name weight height reach age d)) =
  HW2.boxers d ++
  [HW2.Row.mk (HW2.next_id (HW2.boxers d)) name weight height reach age 0 0].
Proof.
  unfold HW2.create_boxer.
  destruct (Qlt_le_dec weight 125) as [W | W];
    [rewrite create_weight; trivial; discriminate | ].
  destruct (Qlt_le_dec 0 height) as [H | H];
    [ | rewrite create_height; trivial; discriminate].
  destruct (Qlt_le_dec 0 reach) as [R | R];
    [ | rewrite create_reach; trivial; discriminate].
  destruct (Z_lt_le_dec age 18) as [A | A];
    [rewrite create_age; trivial; [discriminate | lia] | ].
  destruct (Z_lt_le_dec 40 age) as [A' | A'];
    [rewrite create_age; trivial; [discriminate | lia] | ].
  destruct (find (HW2.has_name name) (HW2.boxers d)) as [b | ] eqn:F.
  - rewrite (create_name_taken d _ name weight height reach age W H R
               (conj A A') b F). discriminate.
  - rewrite (create_name_free d _ name weight height reach age W H R
               (conj A A') F); trivial.
    now rewrite existsb_find, F.
Qed.

(** From its creation on, through any sequence of results recorded for any
    boxers, the new boxer has no more wins than fights. *)
Lemma created_boxer_within_fights
    (d : HW2.db) (name : string) (weight height reach : Q) (age : Z)
    (calls : list (Z * string)) :
  let created := HW2.create_boxer name weight height reach age d in
  fst created = Returns tt ->
  exists b,
    nth_error (HW2.boxers (HW2.update_all calls (snd created)))
              (List.length (HW2.boxers d)) = Some b /\
    HW2.Row.id b = HW2.next_id (HW2.boxers d) /\
    HW2.Row.wins b <= HW2.Row.fights b.
Proof.
  intros created Returned. subst created.
  destruct (update_all_within calls
              (snd (HW2.create_boxer name weight height reach age d))
              (List.length (HW2.boxers d))
              (HW2.Row.mk (HW2.next_id (HW2.boxers d))
                          name weight height reach age 0 0))
    as (b & Nth & Id & Within).
  - rewrite (create_boxer_returns _ _ _ _ _ _ Returned).
    now rewrite nth_error_app2, Nat.sub_diag by lia.
  - unfold within_fights. simpl. lia.
  - exists b. repeat split; trivial. apply Within.
Qed.

Lemma update_boxer_stats_keeps_weights
    (d : HW2.db) (boxer_id : Z) (result : string) :
  Forall (fun b => (125 <= HW2.Row.weight b)%Q) (HW2.boxers d) ->
  Forall (fun b => (125 <= HW2.Row.weight b)%Q)
    (HW2.boxers (snd (HW2.update_boxer_stats boxer_id result d))).
Proof.
  intro Kept.
  destruct (update_boxer_stats_table d boxer_id result) as [-> | [-> | ->]];
    trivial; unfold HW2.update_where_id; apply Forall_map;
    apply Forall_impl with (2 := Kept); intros b W;
    now destruct (HW2.has_id boxer_id b).
Qed.

Lemma delete_boxer_keeps_weights (d : HW2.db) (boxer_id : Z) :
  Forall (fun b => (125 <= HW2.Row.weight b)%Q) (HW2.boxers d) ->
  Forall (fun b => (125 <= HW2.Row.weight b)%Q)
    (HW2.boxers (snd (HW2.delete_boxer boxer_id d))).
Proof.
  intro Kept.
  unfold HW2.delete_boxer, HW2.with_connection, HW2.select_id_where_id,
    HW2.delete_where_id, HW2.commit, HW2.bind, HW2.log, HW2.rows, HW2.store,
    HW2.ret, HW2.raise.
  simpl. destruct (find (HW2.has_id boxer_id) (HW2.boxers d)); simpl; trivial.
  rewrite Forall_forall in *. intros b I. apply filter_In in I. now apply Kept.
Qed.

(** The race of the specification, evaluated: "Joe" is free when
    [create_boxer] looks, another connection stores a Joe, and the INSERT's
    [IntegrityError] comes out as the already-exists [ValueError]. *)
Example create_boxer_race :
  let joe := HW2.Row.mk 2 "Joe" 140 69 70 30 0 0 in
  HW2.create_boxer_meanwhile (fun t => t ++ [joe]) "Joe" 150 70 72 25
    (HW2.mk_db [ali] []) =
  (Raises (ValueError (Name_already_exists "Joe")),
   HW2.mk_db [ali; joe]
     [HW2.Connect; HW2.Execute (HW2.SELECT_1_WHERE_name "Joe");
      HW2.Execute (HW2.INSERT_INTO_boxers "Joe" 150 70 72 25)]).
Proof. reflexivity. Qed.

(** ** The SQLAlchemy module *)

(** [update_stats] of HW3 counts like [update_boxer_stats]: an invalid
    result changes nothing; otherwise fights goes up by one and wins by one
    for a win, and the commit is reached when wins <= fights held before. *)
Lemma HW3_update_stats_counts (self : HW3.Boxers.t) (result : string) :
  let '(raised, after, committed) := HW3.update_stats self result in
  (result <> "win" -> result <> "loss" ->
   raised = Raises (ValueError Result_must_be_win_or_loss) /\
   after = self /\ committed = false) /\
  (result = "win" \/ result = "loss" ->
   HW3.Boxers.fights after = HW3.Boxers.fights self + 1 /\
   (HW3.Boxers.wins after = HW3.Boxers.wins self + 1 <-> result = "win") /\
   (HW3.Boxers.wins after = HW3.Boxers.wins self <-> result = "loss") /\
   (HW3.Boxers.wins self <= HW3.Boxers.fights self ->
    raised = Returns tt /\ committed = true /\
    HW3.Boxers.wins after <= HW3.Boxers.fights after)).
Proof.
  unfold HW3.update_stats.
  destruct (string_dec result "win") as [-> | W];
    [ | destruct (string_dec result "loss") as [-> | L]]; simpl.
  - destruct (HW3.Boxers.fights self + 1 <? HW3.Boxers.wins self + 1) eqn:C;
      simpl; (split; [congruence | ]); intros _;
      repeat split; try discriminate; try lia;
      apply Z.ltb_lt in C; lia.
  - destruct (HW3.Boxers.fights self + 1 <? HW3.Boxers.wins self) eqn:C;
      simpl; (split; [congruence | ]); intros _;
      repeat split; try discriminate; try lia;
      apply Z.ltb_lt in C; lia.
  - rewrite (proj2 (result_checked result) (conj W L)). simpl.
    split; [now repeat split | intros [-> | ->]; congruence].
Qed.

(** [compute_win_pct] of HW3 rounds twice before [round] as well. *)
Example HW3_compute_win_pct_of_23_in_80 :
  HW3.compute_win_pct (HW3.Boxers.mk 2 "Frazier" 205 71 73 30 "HEAVYWEIGHT" 80 23)
  = Float64.of_tenths false 287.
Proof. vm_compute. reflexivity. Qed.

(** [get_leaderboard] of HW3: the instances with fights > 0, each once, in
    descending order of the chosen key of the dict. *)
Lemma HW3_get_leaderboard_ranks (stored : list HW3.Boxers.t) (sort_by : string) :
  sort_by = "wins" \/ sort_by = "win_pct" ->
  exists leaderboard,
    HW3.get_leaderboard stored sort_by = Returns leaderboard /\
    Permutation leaderboard
      (map HW3.entry_of (filter (fun b => 0 <? HW3.Boxers.fights b) stored)) /\
    (sort_by = "wins" -> descending Z.ltb HW3.Entry.wins leaderboard) /\
    (sort_by = "win_pct" ->
     descending Float64.ltb HW3.Entry.win_pct leaderboard).
Proof.
  intros [-> | ->]; unfold HW3.get_leaderboard; simpl; eexists;
    (split; [reflexivity | ]);
    (split; [apply sort_desc_perm | ]);
    split; intro E; try discriminate.
  - apply sort_desc_sorted, Zltb_asym.
  - apply sort_desc_sorted, Float64_ltb_asym.
Qed.

(** * Further properties of the sqlite module *)

(** ** Runs of [delete_boxer] and outcomes of the writing calls *)

Lemma delete_missing (d : HW2.db) (boxer_id : Z) :
  find (HW2.has_id boxer_id) (HW2.boxers d) = None ->
  HW2.delete_boxer boxer_id d =
  (Raises (ValueError (Id_not_found boxer_id)),
   HW2.mk_db (HW2.boxers d)
     (HW2.journal d ++
      [HW2.Connect; HW2.Execute (HW2.SELECT_id_WHERE_id boxer_id)])).
Proof.
  intro N.
  unfold HW2.delete_boxer, HW2.with_connection, HW2.select_id_where_id,
    HW2.bind, HW2.log, HW2.rows, HW2.ret, HW2.raise.
  simpl. rewrite N. simpl. now rewrite <- app_assoc.
Qed.

Lemma delete_found (d : HW2.db) (boxer_id : Z) (b : HW2.Row.t) :
  find (HW2.has_id boxer_id) (HW2.boxers d) = Some b ->
  HW2.delete_boxer boxer_id d =
  (Returns tt,
   HW2.mk_db (filter (fun r => negb (HW2.has_id boxer_id r)) (HW2.boxers d))
     (HW2.journal d ++
      [HW2.Connect; HW2.Execute (HW2.SELECT_id_WHERE_id boxer_id);
       HW2.Execute (HW2.DELETE_WHERE_id boxer_id); HW2.Commit])).
Proof.
  intro F.
  unfold HW2.delete_boxer, HW2.with_connection, HW2.select_id_where_id,
    HW2.delete_where_id, HW2.commit, HW2.bind, HW2.log, HW2.rows, HW2.store,
    HW2.ret, HW2.raise.
  simpl. rewrite F. simpl. now rewrite <- !app_assoc.
Qed.

Lemma find_has_id_iff (i : Z) (t : list HW2.Row.t) :
  find (HW2.has_id i) t = None <-> forall b, In b t -> HW2.Row.id b <> i.
Proof.
  rewrite find_none_iff. unfold HW2.has_id.
  split; intros H b I; specialize (H b I); now apply Z.eqb_neq.
Qed.

Lemma find_has_name_iff (n : string) (t : list HW2.Row.t) :
  find (HW2.has_name n) t = None <-> forall b, In b t -> HW2.Row.name b <> n.
Proof.
  rewrite find_none_iff. unfold HW2.has_name.
  split; intros H b I; specialize (H b I); now apply String.eqb_neq.
Qed.


(** The id the database assigns is above every id in the table. *)
Lemma next_id_above (t : list HW2.Row.t) :
  1 <= HW2.next_id t /\ forall b, In b t -> HW2.Row.id b < HW2.next_id t.
Proof.
  unfold HW2.next_id. induction t as [ | r t [IH1 IH2]]; cbn [fold_right].
  - split; [lia | intros b []].
  - split; [lia | ]. intros b [<- | I]; [lia | ].
    specialize (IH2 b I). lia.
Qed.

(** The two ways a call of [create_boxer] ends when no other connection
    writes. *)
Lemma create_boxer_outcome
    (d : HW2.db) (name : string) (weight height reach : Q) (age : Z) :
  let run := HW2.create_boxer name weight height reach age d in
  let accepted :=
    (125 <= weight)%Q /\ (0 < height)%Q /\ (0 < reach)%Q /\
    18 <= age <= 40 /\ find (HW2.has_name name) (HW2.boxers d) = None in
  (accepted /\ fst run = Returns tt /\
   HW2.boxers (snd run) =
   HW2.boxers d ++
   [HW2.Row.mk (HW2.next_id (HW2.boxers d)) name weight height reach age 0 0])
  \/
  (~ accepted /\ (exists m, fst run = Raises (ValueError m)) /\
   HW2.boxers (snd run) = HW2.boxers d).
Proof.
  intros run accepted. subst run accepted. unfold HW2.create_boxer.
  destruct (Qlt_le_dec weight 125) as [W | W].
  { right. rewrite create_weight by trivial.
    (split; [ | split; [eexists; reflexivity | reflexivity]]). intros (W' & _). now apply Qlt_not_le in W. }
  destruct (Qlt_le_dec 0 height) as [H | H].
  2:{ right. rewrite create_height by trivial.
      (split; [ | split; [eexists; reflexivity | reflexivity]]). intros (_ & H' & _). now apply Qlt_not_le in H'. }
  destruct (Qlt_le_dec 0 reach) as [R | R].
  2:{ right. rewrite create_reach by trivial.
      (split; [ | split; [eexists; reflexivity | reflexivity]]). intros (_ & _ & R' & _). now apply Qlt_not_le in R'. }
  destruct (Z_lt_le_dec age 18) as [A | A].
  { right. rewrite create_age by (trivial; lia).
    (split; [ | split; [eexists; reflexivity | reflexivity]]). intros (_ & _ & _ & A' & _). lia. }
  destruct (Z_lt_le_dec 40 age) as [A' | A'].
  { right. rewrite create_age by (trivial; lia).
    (split; [ | split; [eexists; reflexivity | reflexivity]]). intros (_ & _ & _ & A'' & _). lia. }
  destruct (find (HW2.has_name name) (HW2.boxers d)) as [b | ] eqn:F.
  - right.
    rewrite (create_name_taken d _ name weight height reach age W H R
               (conj A A') b F).
    (split; [ | split; [eexists; reflexivity | reflexivity]]). intros (_ & _ & _ & _ & N). discriminate.
  - left.
    rewrite (create_name_free d _ name weight height reach age W H R
               (conj A A') F) by (now rewrite existsb_find, F).
    repeat split; trivial.
Qed.

Lemma update_boxer_stats_outcome (d : HW2.db) (boxer_id : Z) (result : string) :
  let run := HW2.update_boxer_stats boxer_id result d in
  (exists b, find (HW2.has_id boxer_id) (HW2.boxers d) = Some b /\
             (result = "win" /\ fst run = Returns tt /\
              HW2.boxers (snd run) =
              HW2.update_where_id boxer_id HW2.won (HW2.boxers d) \/
              result = "loss" /\ fst run = Returns tt /\
              HW2.boxers (snd run) =
              HW2.update_where_id boxer_id HW2.lost (HW2.boxers d))) \/
  ((result <> "win" /\ result <> "loss" \/
    find (HW2.has_id boxer_id) (HW2.boxers d) = None) /\
   (exists m, fst run = Raises (ValueError m)) /\
   HW2.boxers (snd run) = HW2.boxers d).
Proof.
  intro run. subst run.
  destruct (string_dec result "win") as [-> | W];
    [ | destruct (string_dec result "loss") as [-> | L]].
  - destruct (find (HW2.has_id boxer_id) (HW2.boxers d)) as [b | ] eqn:F.
    + left. exists b. rewrite (update_win d boxer_id b F).
      split; [reflexivity | left; repeat split].
    + right. rewrite (update_missing d boxer_id "win" (or_introl eq_refl) F).
      split; [now right | split; [eexists; reflexivity | reflexivity]].
  - destruct (find (HW2.has_id boxer_id) (HW2.boxers d)) as [b | ] eqn:F.
    + left. exists b. rewrite (update_loss d boxer_id b F).
      split; [reflexivity | right; repeat split].
    + right. rewrite (update_missing d boxer_id "loss" (or_intror eq_refl) F).
      split; [now right | split; [eexists; reflexivity | reflexivity]].
  - right. rewrite (update_refused d boxer_id result W L).
    split; [now left | split; [eexists; reflexivity | reflexivity]].
Qed.

Lemma find_app {A} (f : A -> bool) (l l' : list A) :
  find f (l ++ l') = match find f l with Some a => Some a | None => find f l' end.
Proof.
  induction l as [ | a l IH]; simpl; trivial. now destruct (f a).
Qed.

Lemma find_filter_other (i j : Z) (t : list HW2.Row.t) :
  j <> i ->
  find (HW2.has_id j) (filter (fun r => negb (HW2.has_id i r)) t) =
  find (HW2.has_id j) t.
Proof.
  intro O. induction t as [ | r t IH]; simpl; trivial.
  unfold HW2.has_id in *.
  destruct (HW2.Row.id r =? i) eqn:E; simpl.
  - apply Z.eqb_eq in E.
    replace (HW2.Row.id r =? j) with false; trivial.
    symmetry. apply Z.eqb_neq. congruence.
  - destruct (HW2.Row.id r =? j); trivial.
Qed.

Lemma filter_all {A} (f : A -> bool) (l : list A) :
  (forall a, In a l -> f a = true) -> filter f l = l.
Proof.
  induction l as [ | a l IH]; simpl; intro H; trivial.
  rewrite (H a (or_introl eq_refl)). f_equal. apply IH. intros; apply H; now right.
Qed.

(** ** Deleting *)



(** X2.  [delete_boxer] on the id of a stored boxer returns, after SELECT,
    DELETE and commit; the table keeps the rows of the other ids, in their
    order, and loses those of the id, so that a lookup of any other id
    finds what it found before. *)
Theorem delete_boxer_removes (d : HW2.db) (boxer_id : Z) (b : HW2.Row.t) :
  In b (HW2.boxers d) -> HW2.Row.id b = boxer_id ->
  let run := HW2.delete_boxer boxer_id d in
  fst run = Returns tt /\
  HW2.boxers (snd run) =
  filter (fun r => negb (HW2.Row.id r =? boxer_id)) (HW2.boxers d) /\
  (forall r, In r (HW2.boxers (snd run)) <->
             In r (HW2.boxers d) /\ HW2.Row.id r <> boxer_id) /\
  (forall other, other <> boxer_id ->
     find (HW2.has_id other) (HW2.boxers (snd run)) =
     find (HW2.has_id other) (HW2.boxers d)) /\
  HW2.journal (snd run) =
  HW2.journal d ++
  [HW2.Connect; HW2.Execute (HW2.SELECT_id_WHERE_id boxer_id);
   HW2.Execute (HW2.DELETE_WHERE_id boxer_id); HW2.Commit].
Proof.
  intros I E run. subst run.
  destruct (find (HW2.has_id boxer_id) (HW2.boxers d)) as [b0 | ] eqn:F.
  - rewrite (delete_found d boxer_id b0 F). simpl.
    split; [reflexivity | split; [reflexivity | split; [ | split]]].
    + intro r. rewrite filter_In. unfold HW2.has_id.
      rewrite negb_true_iff, Z.eqb_neq. tauto.
    + intros other O. now apply find_filter_other.
    + reflexivity.
  - apply (proj1 (find_has_id_iff _ _) F) in I. contradiction.
Qed.

Lemma delete_boxer_removes_witness :
  let run := HW2.delete_boxer 2 (HW2.mk_db [ali; frazier; foreman] []) in
  fst run = Returns tt /\ HW2.boxers (snd run) = [ali; foreman].
Proof.
  destruct (delete_boxer_removes (HW2.mk_db [ali; frazier; foreman] []) 2
              frazier (or_intror (or_introl eq_refl)) eq_refl)
    as (R & T & _).
  split; [exact R | exact T].
Defined.


(** ** Creating, then looking up and deleting *)

(** X4.  A boxer whose creation returned is found, by the name given and by
    the id the database assigned, as a [Boxer] with the arguments of the
    call and the weight class of its weight. *)
Theorem create_boxer_then_lookup
    (d : HW2.db) (name : string) (weight height reach : Q) (age : Z) :
  let created := HW2.create_boxer name weight height reach age d in
  let boxer_id := HW2.next_id (HW2.boxers d) in
  fst created = Returns tt ->
  exists class,
    HW2.get_weight_class weight = Returns class /\
    fst (HW2.get_boxer_by_name name (snd created)) =
      Returns (HW2.Boxer.mk boxer_id name weight height reach age class) /\
    fst (HW2.get_boxer_by_id boxer_id (snd created)) =
      Returns (HW2.Boxer.mk boxer_id name weight height reach age class).
Proof.
  intros created boxer_id Returned. subst created boxer_id.
  destruct (create_boxer_outcome d name weight height reach age)
    as [((W & _ & _ & _ & Free) & _ & Table) | (_ & (m & Raised) & _)];
    [ | congruence].
  destruct (proj2 (get_weight_class_witnessed weight) W) as [class Class].
  exists class. split; [exact Class | ].
  rewrite get_boxer_by_name_run, get_boxer_by_id_run, Table, !find_app, Free.
  rewrite (proj2 (find_has_id_iff (HW2.next_id (HW2.boxers d)) (HW2.boxers d))).
  - simpl. unfold HW2.has_name, HW2.has_id. simpl.
    rewrite String.eqb_refl, Z.eqb_refl. simpl.
    unfold HW2.Boxer_of_row, HW2.Boxer. simpl. rewrite Class. split; reflexivity.
  - intros b I. apply (proj2 (next_id_above (HW2.boxers d))) in I. lia.
Qed.

Lemma create_boxer_then_lookup_witness :
  let created := HW2.create_boxer "Joe" 140 69 70 30 (HW2.mk_db [ali] []) in
  exists class,
    HW2.get_weight_class 140 = Returns class /\
    fst (HW2.get_boxer_by_name "Joe" (snd created)) =
      Returns (HW2.Boxer.mk 2 "Joe" 140 69 70 30 class) /\
    fst (HW2.get_boxer_by_id 2 (snd created)) =
      Returns (HW2.Boxer.mk 2 "Joe" 140 69 70 30 class).
Proof.
  exact (create_boxer_then_lookup (HW2.mk_db [ali] []) "Joe" 140 69 70 30
           eq_refl).
Defined.

(** X5.  Deleting a boxer right after its creation, by the id it was given,
    returns and leaves the table as it was before the creation. *)
Theorem create_boxer_then_delete
    (d : HW2.db) (name : string) (weight height reach : Q) (age : Z) :
  let created := HW2.create_boxer name weight height reach age d in
  let deleted :=
    HW2.delete_boxer (HW2.next_id (HW2.boxers d)) (snd created) in
  fst created = Returns tt ->
  fst deleted = Returns tt /\ HW2.boxers (snd deleted) = HW2.boxers d.
Proof.
  intros created deleted Returned. subst created deleted.
  destruct (create_boxer_outcome d name weight height reach age)
    as [(_ & _ & Table) | (_ & (m & Raised) & _)]; [ | congruence].
  set (row := HW2.Row.mk (HW2.next_id (HW2.boxers d))
                         name weight height reach age 0 0) in *.
  assert (Others : forall b, In b (HW2.boxers d) ->
                             HW2.Row.id b <> HW2.next_id (HW2.boxers d)).
  { intros b I. apply (proj2 (next_id_above (HW2.boxers d))) in I. lia. }
  rewrite (delete_found _ _ row).
  - simpl. split; trivial. rewrite Table, filter_app. simpl.
    unfold HW2.has_id at 2. simpl. rewrite Z.eqb_refl. simpl.
    rewrite app_nil_r. apply filter_all. intros b I.
    unfold HW2.has_id. apply negb_true_iff, Z.eqb_neq. now apply Others.
  - rewrite Table, find_app, (proj2 (find_has_id_iff _ _) Others). simpl.
    unfold HW2.has_id. simpl. now rewrite Z.eqb_refl.
Qed.

Lemma create_boxer_then_delete_witness :
  let d := HW2.mk_db [ali; frazier] [] in
  let created := HW2.create_boxer "Joe" 140 69 70 30 d in
  fst (HW2.delete_boxer 3 (snd created)) = Returns tt /\
  HW2.boxers (snd (HW2.delete_boxer 3 (snd created))) = [ali; frazier].
Proof.
  exact (create_boxer_then_delete (HW2.mk_db [ali; frazier] [])
           "Joe" 140 69 70 30 eq_refl).
Defined.

(** ** What the calls return and what they leave *)

(** X6.  The three lookups only read: [get_boxer_by_id],
    [get_boxer_by_name] and [get_leaderboard] leave the table as it was,
    whatever their argument and whether they return or raise. *)
Theorem lookups_read_only (d : HW2.db) :
  (forall boxer_id,
     HW2.boxers (snd (HW2.get_boxer_by_id boxer_id d)) = HW2.boxers d) /\
  (forall boxer_name,
     HW2.boxers (snd (HW2.get_boxer_by_name boxer_name d)) = HW2.boxers d) /\
  (forall sort_by,
     HW2.boxers (snd (HW2.get_leaderboard sort_by d)) = HW2.boxers d).
Proof.
  split; [ | split].
  - intro boxer_id. now rewrite get_boxer_by_id_run.
  - intro boxer_name. now rewrite get_boxer_by_name_run.
  - intro sort_by.
    destruct (string_dec sort_by "win_pct") as [-> | P];
      [now rewrite (get_leaderboard_run d "win_pct" HW2.ORDER_BY_win_pct_DESC)
        by auto | ].
    destruct (string_dec sort_by "wins") as [-> | W];
      [now rewrite (get_leaderboard_run d "wins" HW2.ORDER_BY_wins_DESC)
        by auto | ].
    now rewrite (get_leaderboard_refuses d sort_by P W).
Qed.

(** X7.  A writing call that raises has written nothing: when
    [create_boxer], [delete_boxer] or [update_boxer_stats] raises, the table
    is what it was before the call. *)
Theorem raising_calls_write_nothing (d : HW2.db) :
  (forall name weight height reach age e,
     fst (HW2.create_boxer name weight height reach age d) = Raises e ->
     HW2.boxers (snd (HW2.create_boxer name weight height reach age d)) =
     HW2.boxers d) /\
  (forall boxer_id e,
     fst (HW2.delete_boxer boxer_id d) = Raises e ->
     HW2.boxers (snd (HW2.delete_boxer boxer_id d)) = HW2.boxers d) /\
  (forall boxer_id result e,
     fst (HW2.update_boxer_stats boxer_id result d) = Raises e ->
     HW2.boxers (snd (HW2.update_boxer_stats boxer_id result d)) =
     HW2.boxers d).
Proof.
  split; [ | split].
  - intros name weight height reach age e Raised.
    destruct (create_boxer_outcome d name weight height reach age)
      as [(_ & Returned & _) | (_ & _ & Same)]; [congruence | exact Same].
  - intros boxer_id e.
    destruct (find (HW2.has_id boxer_id) (HW2.boxers d)) as [b | ] eqn:F.
    + rewrite (delete_found d boxer_id b F). discriminate.
    + now rewrite (delete_missing d boxer_id F).
  - intros boxer_id result e Raised.
    destruct (update_boxer_stats_outcome d boxer_id result)
      as [(b & _ & [(_ & R & _) | (_ & R & _)]) | (_ & _ & Same)];
      [congruence | congruence | exact Same].
Qed.

Lemma raising_calls_write_nothing_witness :
  let d := HW2.mk_db [ali] [] in
  HW2.boxers (snd (HW2.create_boxer "Ali" 150 70 72 25 d)) = [ali] /\
  HW2.boxers (snd (HW2.delete_boxer 7 d)) = [ali] /\
  HW2.boxers (snd (HW2.update_boxer_stats 1 "draw" d)) = [ali].
Proof.
  intro d.
  destruct (raising_calls_write_nothing d) as (C & D & U).
  split; [ | split].
  - exact (C "Ali" 150%Q 70%Q 72%Q 25 _ eq_refl).
  - exact (D 7 _ eq_refl).
  - exact (U 1 "draw" _ eq_refl).
Defined.


(** X9.  [update_boxer_stats] returns exactly when the result is 'win' or
    'loss' and a row has the id, and [delete_boxer] exactly when a row has
    the id. *)
Theorem update_and_delete_return_iff (d : HW2.db) (boxer_id : Z) :
  (forall result,
     fst (HW2.update_boxer_stats boxer_id result d) = Returns tt <->
     (result = "win" \/ result = "loss") /\
     exists b, In b (HW2.boxers d) /\ HW2.Row.id b = boxer_id) /\
  (fst (HW2.delete_boxer boxer_id d) = Returns tt <->
   exists b, In b (HW2.boxers d) /\ HW2.Row.id b = boxer_id).
Proof.
  assert (Exists : forall b0,
             find (HW2.has_id boxer_id) (HW2.boxers d) = Some b0 ->
             exists b, In b (HW2.boxers d) /\ HW2.Row.id b = boxer_id).
  { intros b0 F. apply find_some in F. destruct F as [I E].
    exists b0. split; trivial. now apply Z.eqb_eq. }
  assert (Missing : find (HW2.has_id boxer_id) (HW2.boxers d) = None ->
                    ~ exists b, In b (HW2.boxers d) /\ HW2.Row.id b = boxer_id).
  { intros N (b & I & E). now apply (proj1 (find_has_id_iff _ _) N) in I. }
  split.
  - intro result.
    destruct (update_boxer_stats_outcome d boxer_id result)
      as [(b & F & [(-> & R & _) | (-> & R & _)]) | (Why & (m & Raised) & _)].
    + rewrite R. split; [intros _ | trivial]. split; [now left | eauto].
    + rewrite R. split; [intros _ | trivial]. split; [now right | eauto].
    + rewrite Raised. split; [discriminate | ].
      intros (V & E). exfalso. destruct Why as [[W L] | N].
      * destruct V; contradiction.
      * now apply Missing.
  - destruct (find (HW2.has_id boxer_id) (HW2.boxers d)) as [b | ] eqn:F.
    + rewrite (delete_found d boxer_id b F). simpl. split; eauto.
    + rewrite (delete_missing d boxer_id F). simpl.
      split; [discriminate | ]. intro E. now apply Missing in E.
Qed.

(** ** The invariant of the table *)

Lemma NoDup_map_snoc {A B} (f : A -> B) (l : list A) (x : A) :
  NoDup (map f l) -> (forall a, In a l -> f a <> f x) ->
  NoDup (map f (l ++ [x])).
Proof.
  intros N Fresh. rewrite map_app. simpl.
  apply NoDup_app_remove_l with (l := []). simpl.
  apply Permutation_NoDup with (l := f x :: map f l).
  - apply Permutation_cons_append.
  - constructor; trivial. intro I. apply in_map_iff in I.
    destruct I as (a & E & I). now apply (Fresh a I).
Qed.

Lemma NoDup_map_filter {A B} (f : A -> B) (g : A -> bool) (l : list A) :
  NoDup (map f l) -> NoDup (map f (filter g l)).
Proof.
  induction l as [ | a l IH]; simpl; intro N; trivial.
  inversion N as [ | ? ? Out N']; subst.
  destruct (g a); simpl; [ | now apply IH].
  constructor; [ | now apply IH].
  intro I. apply Out. apply in_map_iff in I. destruct I as (b & E & I).
  apply filter_In in I. apply in_map_iff. exists b. tauto.
Qed.

Lemma map_update_where_id {B} (g : HW2.Row.t -> B) (i : Z)
    (f : HW2.Row.t -> HW2.Row.t) (t : list HW2.Row.t) :
  (forall r, g (f r) = g r) ->
  map g (HW2.update_where_id i f t) = map g t.
Proof.
  intro Same. unfold HW2.update_where_id. rewrite map_map.
  apply map_ext. intro r. now destruct (HW2.has_id i r).
Qed.

Lemma create_boxer_well_formed
    (d : HW2.db) (name : string) (weight height reach : Q) (age : Z) :
  well_formed (HW2.boxers d) ->
  well_formed (HW2.boxers (snd (HW2.create_boxer name weight height reach age d))).
Proof.
  intros (Ids & Names & Rows).
  destruct (create_boxer_outcome d name weight height reach age)
    as [((W & H & R & A & Free) & _ & ->) | (_ & _ & ->)];
    [ | now repeat split].
  destruct (next_id_above (HW2.boxers d)) as [Pos Above].
  repeat split.
  - apply NoDup_map_snoc; trivial. simpl. intros b I.
    specialize (Above b I). lia.
  - apply NoDup_map_snoc; trivial. simpl.
    now apply find_has_name_iff.
  - apply Forall_app. split; trivial.
    repeat constructor; simpl; trivial; lia.
Qed.

Lemma delete_boxer_well_formed (d : HW2.db) (boxer_id : Z) :
  well_formed (HW2.boxers d) ->
  well_formed (HW2.boxers (snd (HW2.delete_boxer boxer_id d))).
Proof.
  intros (Ids & Names & Rows).
  destruct (find (HW2.has_id boxer_id) (HW2.boxers d)) as [b | ] eqn:F.
  - rewrite (delete_found d boxer_id b F). simpl. repeat split.
    + now apply NoDup_map_filter.
    + now apply NoDup_map_filter.
    + rewrite Forall_forall in *. intros r I. apply filter_In in I.
      now apply Rows.
  - rewrite (delete_missing d boxer_id F). now repeat split.
Qed.

Lemma update_where_id_well_formed (i : Z) (f : HW2.Row.t -> HW2.Row.t)
    (t : list HW2.Row.t) :
  (forall r, HW2.Row.id (f r) = HW2.Row.id r) ->
  (forall r, HW2.Row.name (f r) = HW2.Row.name r) ->
  (forall r, valid_row r -> valid_row (f r)) ->
  well_formed t -> well_formed (HW2.update_where_id i f t).
Proof.
  intros Id Name Valid (Ids & Names & Rows). repeat split.
  - now rewrite map_update_where_id.
  - now rewrite map_update_where_id.
  - unfold HW2.update_where_id. apply Forall_map.
    apply Forall_impl with (2 := Rows). intros r V.
    destruct (HW2.has_id i r); auto.
Qed.

Lemma update_boxer_stats_well_formed
    (d : HW2.db) (boxer_id : Z) (result : string) :
  well_formed (HW2.boxers d) ->
  well_formed (HW2.boxers (snd (HW2.update_boxer_stats boxer_id result d))).
Proof.
  intro WF.
  destruct (update_boxer_stats_table d boxer_id result) as [-> | [-> | ->]];
    trivial;
    apply update_where_id_well_formed; trivial;
    unfold valid_row; simpl; intros r V; intuition lia.
Qed.

Lemma run_call_well_formed (c : call) (d : HW2.db) :
  well_formed (HW2.boxers d) -> well_formed (HW2.boxers (run_call c d)).
Proof.
  intro WF. destruct c; simpl.
  - now apply create_boxer_well_formed.
  - now apply delete_boxer_well_formed.
  - now apply update_boxer_stats_well_formed.
  - now rewrite get_boxer_by_id_run.
  - now rewrite get_boxer_by_name_run.
  - destruct (string_dec sort_by "win_pct") as [-> | P];
      [now rewrite (get_leaderboard_run d "win_pct" HW2.ORDER_BY_win_pct_DESC)
        by auto | ].
    destruct (string_dec sort_by "wins") as [-> | W];
      [now rewrite (get_leaderboard_run d "wins" HW2.ORDER_BY_wins_DESC)
        by auto | ].
    now rewrite (get_leaderboard_refuses d sort_by P W).
Qed.

Lemma run_calls_well_formed (calls : list call) :
  forall d, well_formed (HW2.boxers d) ->
            well_formed (HW2.boxers (run_calls calls d)).
Proof.
  induction calls as [ | c calls IH]; intros d WF; simpl; trivial.
  now apply IH, run_call_well_formed.
Qed.

Lemma empty_well_formed : well_formed (HW2.boxers empty_db).
Proof.
  repeat split; simpl; constructor.
Qed.

(** X10.  Whatever calls a client makes on a database that was empty, in
    whatever order and whether they return or raise, the table they leave
    has no two rows of the same id and no two of the same name, and every
    row has a weight of at least 125, a positive height and reach, an age
    from 18 to 40 and 0 <= wins <= fights.  The same holds from any table
    of which it already holds. *)
Theorem table_invariant (calls : list call) :
  let t := HW2.boxers (run_calls calls empty_db) in
  (NoDup (map HW2.Row.id t) /\ NoDup (map HW2.Row.name t) /\
   forall b, In b t ->
     (125 <= HW2.Row.weight b)%Q /\ (0 < HW2.Row.height b)%Q /\
     (0 < HW2.Row.reach b)%Q /\ 18 <= HW2.Row.age b <= 40 /\
     0 <= HW2.Row.wins b <= HW2.Row.fights b) /\
  (forall d, well_formed (HW2.boxers d) ->
             well_formed (HW2.boxers (run_calls calls d))).
Proof.
  intro t. subst t. split; [ | apply run_calls_well_formed].
  destruct (run_calls_well_formed calls empty_db empty_well_formed)
    as (Ids & Names & Rows).
  split; [exact Ids | split; [exact Names | ]].
  intros b In_t. rewrite Forall_forall in Rows.
  destruct (Rows b In_t) as (I & W & H & R & A & C).
  repeat split; trivial; lia.
Qed.

(** ** Lookups on the tables the module builds *)

Section Unique_keys.

Context {K : Type}.
Variable key : HW2.Row.t -> K.
Variable eqb : K -> K -> bool.
Hypothesis eqb_eq : forall x y, eqb x y = true <-> x = y.

Lemma find_unique (t : list HW2.Row.t) (b : HW2.Row.t) :
  NoDup (map key t) -> In b t ->
  find (fun r => eqb (key r) (key b)) t = Some b.
Proof.
  induction t as [ | r t IH]; simpl; intros N I; [destruct I | ].
  inversion N as [ | ? ? Out N']; subst.
  destruct I as [-> | I].
  - now rewrite (proj2 (eqb_eq _ _) eq_refl).
  - destruct (eqb (key r) (key b)) eqn:E; [ | now apply IH].
    apply eqb_eq in E. exfalso. apply Out. rewrite E. now apply in_map.
Qed.

End Unique_keys.

Lemma Boxer_of_valid_row (b : HW2.Row.t) :
  (125 <= HW2.Row.weight b)%Q ->
  exists class,
    HW2.get_weight_class (HW2.Row.weight b) = Returns class /\
    HW2.Boxer_of_row b =
    Returns (HW2.Boxer.mk (HW2.Row.id b) (HW2.Row.name b) (HW2.Row.weight b)
               (HW2.Row.height b) (HW2.Row.reach b) (HW2.Row.age b) class).
Proof.
  intro W.
  destruct (proj2 (get_weight_class_witnessed (HW2.Row.weight b)) W)
    as [class Class].
  exists class. split; trivial.
  unfold HW2.Boxer_of_row, HW2.Boxer. now rewrite Class.
Qed.

Lemma leaderboard_returns (d : HW2.db) (sort_by : string) :
  sort_by = "wins" \/ sort_by = "win_pct" ->
  Forall (fun b => 0 < HW2.Row.fights b -> (125 <= HW2.Row.weight b)%Q)
    (HW2.boxers d) ->
  exists leaderboard, fst (HW2.get_leaderboard sort_by d) = Returns leaderboard.
Proof.
  intros Valid Weights.
  assert (O : exists o,
             (sort_by = "win_pct" /\ o = HW2.ORDER_BY_win_pct_DESC \/
              sort_by = "wins" /\ o = HW2.ORDER_BY_wins_DESC))
    by (destruct Valid; eauto).
  destruct O as [o O]. rewrite (get_leaderboard_run d sort_by o O). simpl.
  apply entries_return. apply Forall_forall. intros row I.
  destruct (fetched_rows o (HW2.boxers d)) as [_ Rows].
  rewrite Forall_forall in Rows, Weights.
  destruct (Rows row I) as (_ & In_table & Fought). now apply Weights.
Qed.

(** X11.  On every table a client has built from the empty database, each
    stored boxer is found by its id and by its name, as the [Boxer] of its
    row with the class of its weight, and [get_leaderboard] returns for
    'wins' and for 'win_pct': neither raises the error of a weight below
    the classes. *)
Theorem built_tables_answer (calls : list call) :
  let d := run_calls calls empty_db in
  (forall b, In b (HW2.boxers d) ->
     exists class,
       HW2.get_weight_class (HW2.Row.weight b) = Returns class /\
       let boxer :=
         HW2.Boxer.mk (HW2.Row.id b) (HW2.Row.name b) (HW2.Row.weight b)
           (HW2.Row.height b) (HW2.Row.reach b) (HW2.Row.age b) class in
       fst (HW2.get_boxer_by_id (HW2.Row.id b) d) = Returns boxer /\
       fst (HW2.get_boxer_by_name (HW2.Row.name b) d) = Returns boxer) /\
  (forall sort_by, sort_by = "wins" \/ sort_by = "win_pct" ->
     exists leaderboard,
       fst (HW2.get_leaderboard sort_by d) = Returns leaderboard).
Proof.
  intro d. subst d.
  destruct (run_calls_well_formed calls empty_db empty_well_formed)
    as (Ids & Names & Rows).
  rewrite Forall_forall in Rows. split.
  - intros b I. destruct (Rows b I) as (_ & W & _).
    destruct (Boxer_of_valid_row b W) as (class & Class & Made).
    exists class. split; [exact Class | ]. cbv zeta.
    rewrite get_boxer_by_id_run, get_boxer_by_name_run. simpl.
    unfold HW2.has_id, HW2.has_name.
    rewrite (find_unique HW2.Row.id Z.eqb Z.eqb_eq _ b Ids I).
    rewrite (find_unique HW2.Row.name String.eqb String.eqb_eq _ b Names I).
    now split.
  - intros sort_by Valid. apply leaderboard_returns; trivial.
    apply Forall_forall. intros b I _. now destruct (Rows b I) as (_ & W & _).
Qed.

Lemma get_boxer_by_id_run_fst (d : HW2.db) (boxer_id : Z) :
  fst (HW2.get_boxer_by_id boxer_id d) =
  match find (HW2.has_id boxer_id) (HW2.boxers d) with
  | Some r => HW2.Boxer_of_row r
  | None => Raises (ValueError (Id_not_found boxer_id))
  end.
Proof. now rewrite get_boxer_by_id_run. Qed.

Lemma get_boxer_by_name_run_fst (d : HW2.db) (boxer_name : string) :
  fst (HW2.get_boxer_by_name boxer_name d) =
  match find (HW2.has_name boxer_name) (HW2.boxers d) with
  | Some r => HW2.Boxer_of_row r
  | None => Raises (ValueError (Name_not_found boxer_name))
  end.
Proof. now rewrite get_boxer_by_name_run. Qed.

Lemma find_map_same {A} (p : A -> bool) (g : A -> A) (l : list A) :
  (forall a, p (g a) = p a) ->
  find p (map g l) = option_map g (find p l).
Proof.
  intro Same. induction l as [ | a l IH]; simpl; trivial.
  rewrite Same. now destruct (p a).
Qed.

Lemma find_updated_boxer {A} (i : Z) (f : HW2.Row.t -> HW2.Row.t)
    (p : HW2.Row.t -> bool) (t : list HW2.Row.t) (missing : outcome A)
    (made : HW2.Row.t -> outcome A) :
  (forall r, p (f r) = p r) -> (forall r, made (f r) = made r) ->
  match find p (HW2.update_where_id i f t) with
  | Some r => made r
  | None => missing
  end =
  match find p t with
  | Some r => made r
  | None => missing
  end.
Proof.
  intros Keeps Same. unfold HW2.update_where_id.
  rewrite find_map_same
    by (intro r; destruct (HW2.has_id i r); trivial).
  destruct (find p t) as [r | ]; simpl; trivial.
  now destruct (HW2.has_id i r).
Qed.

(** X12.  The lookups do not see the counters: after a call of
    [update_boxer_stats], with whatever arguments, [get_boxer_by_id] and
    [get_boxer_by_name] answer every id and every name as they did before
    it. *)
Theorem lookups_ignore_stats (d : HW2.db) (boxer_id : Z) (result : string) :
  let d' := snd (HW2.update_boxer_stats boxer_id result d) in
  (forall i, fst (HW2.get_boxer_by_id i d') = fst (HW2.get_boxer_by_id i d)) /\
  (forall n,
     fst (HW2.get_boxer_by_name n d') = fst (HW2.get_boxer_by_name n d)).
Proof.
  intro d'. subst d'.
  split; intro x;
    [rewrite !get_boxer_by_id_run_fst | rewrite !get_boxer_by_name_run_fst];
    destruct (update_boxer_stats_table d boxer_id result) as [-> | [-> | ->]];
    trivial; now apply find_updated_boxer.
Qed.

(** ** More on the leaderboard *)

Lemma get_leaderboard_fst (d : HW2.db) (sort_by : string) :
  fst (HW2.get_leaderboard sort_by d) =
  if String.eqb sort_by "win_pct"
  then HW2.entries (HW2.ordered HW2.ORDER_BY_win_pct_DESC
                      (HW2.with_win_pct (HW2.where_fights (HW2.boxers d))))
  else if String.eqb sort_by "wins"
  then HW2.entries (HW2.ordered HW2.ORDER_BY_wins_DESC
                      (HW2.with_win_pct (HW2.where_fights (HW2.boxers d))))
  else Raises (ValueError (Invalid_sort_by sort_by)).
Proof.
  destruct (string_dec sort_by "win_pct") as [-> | P];
    [now rewrite (get_leaderboard_run d "win_pct" HW2.ORDER_BY_win_pct_DESC)
      by auto | ].
  destruct (string_dec sort_by "wins") as [-> | W];
    [now rewrite (get_leaderboard_run d "wins" HW2.ORDER_BY_wins_DESC)
      by auto | ].
  rewrite (get_leaderboard_refuses d sort_by P W).
  now rewrite (proj2 (String.eqb_neq _ _) P), (proj2 (String.eqb_neq _ _) W).
Qed.

(** X13.  A boxer enters the table without fights, so a call of
    [create_boxer], whether it returns or raises, changes nothing in what
    [get_leaderboard] answers, for any [sort_by]. *)
Theorem create_boxer_keeps_leaderboard
    (d : HW2.db) (name : string) (weight height reach : Q) (age : Z)
    (sort_by : string) :
  fst (HW2.get_leaderboard sort_by
         (snd (HW2.create_boxer name weight height reach age d))) =
  fst (HW2.get_leaderboard sort_by d).
Proof.
  rewrite !get_leaderboard_fst.
  destruct (create_boxer_outcome d name weight height reach age)
    as [(_ & _ & ->) | (_ & _ & ->)]; trivial.
  unfold HW2.where_fights. rewrite filter_app. simpl. now rewrite app_nil_r.
Qed.

(** X14.  [get_leaderboard] raises the [ValueError] of an invalid
    [sort_by] exactly for the strings other than 'wins' and 'win_pct', and
    then before any access to the database. *)
Theorem get_leaderboard_sort_by (d : HW2.db) (sort_by : string) :
  let run := HW2.get_leaderboard sort_by d in
  (fst run = Raises (ValueError (Invalid_sort_by sort_by)) <->
   sort_by <> "wins" /\ sort_by <> "win_pct") /\
  (sort_by <> "wins" -> sort_by <> "win_pct" ->
   error_kind_of (fst run) = Some ValidationError /\ snd run = d).
Proof.
  intro run. subst run. split.
  - rewrite get_leaderboard_fst.
    assert (Other : forall fetched,
               HW2.entries fetched <>
               Raises (ValueError (Invalid_sort_by sort_by))).
    { induction fetched as [ | row rest IH]; simpl; [discriminate | ].
      unfold HW2.entry_of, HW2.get_weight_class.
      destruct (Qle_bool 203 _); [ | destruct (Qle_bool 166 _);
        [ | destruct (Qle_bool 133 _); [ | destruct (Qle_bool 125 _)]]];
        try discriminate;
        destruct (HW2.entries rest); try discriminate;
        intro E; apply IH; exact E. }
    destruct (String.eqb sort_by "win_pct") eqn:P.
    { apply String.eqb_eq in P. split; [intro E; now apply Other in E | tauto]. }
    destruct (String.eqb sort_by "wins") eqn:W.
    { apply String.eqb_eq in W. split; [intro E; now apply Other in E | tauto]. }
    apply String.eqb_neq in P, W. tauto.
  - intros W P. now rewrite (get_leaderboard_refuses d sort_by P W).
Qed.

Lemma entries_raise (fetched : list (HW2.Row.t * Float64.float)) :
  Exists (fun row => (HW2.Row.weight (fst row) < 125)%Q) fetched ->
  exists row,
    In row fetched /\ (HW2.Row.weight (fst row) < 125)%Q /\
    HW2.entries fetched =
    Raises (ValueError (Weight_below_classes (HW2.Row.weight (fst row)))).
Proof.
  induction fetched as [ | row rest IH]; intro E; [inversion E | ].
  simpl. destruct (Qlt_le_dec (HW2.Row.weight (fst row)) 125) as [L | G].
  - exists row. split; [now left | split; trivial].
    unfold HW2.entry_of.
    now rewrite (proj1 (get_weight_class_witnessed _) L).
  - destruct (entry_of_returns row G) as [e ->].
    destruct IH as (bad & I & L & ->).
    + inversion E as [? ? L | ]; subst; trivial.
      now apply Qlt_not_le in L.
    + exists bad. split; [now right | now split].
Qed.

(** X15.  One stored boxer with fights > 0 and a weight below 125 (which
    [create_boxer] would not have stored) makes [get_leaderboard] raise for
    both valid values of [sort_by]: the call raises the [ValueError] of
    [get_weight_class] for such a boxer and returns no list. *)
Theorem get_leaderboard_underweight
    (d : HW2.db) (sort_by : string) (b : HW2.Row.t) :
  sort_by = "wins" \/ sort_by = "win_pct" ->
  In b (HW2.boxers d) -> 0 < HW2.Row.fights b ->
  (HW2.Row.weight b < 125)%Q ->
  exists b',
    In b' (HW2.boxers d) /\ 0 < HW2.Row.fights b' /\
    (HW2.Row.weight b' < 125)%Q /\
    fst (HW2.get_leaderboard sort_by d) =
    Raises (ValueError (Weight_below_classes (HW2.Row.weight b'))).
Proof.
  intros Valid I Fought Light.
  assert (O : exists o,
             (sort_by = "win_pct" /\ o = HW2.ORDER_BY_win_pct_DESC \/
              sort_by = "wins" /\ o = HW2.ORDER_BY_wins_DESC))
    by (destruct Valid; eauto).
  destruct O as [o O]. rewrite (get_leaderboard_run d sort_by o O). simpl.
  set (fetched :=
         HW2.ordered o (HW2.with_win_pct (HW2.where_fights (HW2.boxers d)))).
  destruct (fetched_rows o (HW2.boxers d)) as [Perm Rows].
  fold fetched in Perm, Rows.
  destruct (entries_raise fetched) as (row & In_f & L & Raised).
  - assert (In_w : In b (map fst fetched)).
    { apply (Permutation_in _ (Permutation_sym Perm)).
      unfold HW2.where_fights. apply filter_In. split; trivial.
      now apply Z.ltb_lt. }
    apply in_map_iff in In_w. destruct In_w as (row & <- & In_f).
    apply Exists_exists. eauto.
  - rewrite Forall_forall in Rows.
    destruct (Rows row In_f) as (_ & In_t & F).
    exists (fst row). now repeat split.
Qed.

Lemma get_leaderboard_underweight_witness :
  let light := HW2.Row.mk 9 "Light" 120 60 61 20 3 1 in
  let d := HW2.mk_db [ali; light; frazier] [] in
  exists b',
    In b' (HW2.boxers d) /\ 0 < HW2.Row.fights b' /\
    (HW2.Row.weight b' < 125)%Q /\
    fst (HW2.get_leaderboard "wins" d) =
    Raises (ValueError (Weight_below_classes (HW2.Row.weight b'))).
Proof.
  intros light d.
  apply (get_leaderboard_underweight d "wins" light (or_introl eq_refl));
    [right; left; reflexivity | reflexivity | reflexivity].
Defined.

Lemma leaderboard_by_wins_descending
    (d : HW2.db) (leaderboard : list HW2.Entry.t) :
  fst (HW2.get_leaderboard "wins" d) = Returns leaderboard ->
  descending Z.ltb HW2.Entry.wins leaderboard.
Proof.
  rewrite get_leaderboard_fst. simpl. intro E.
  apply entries_Forall2 in E.
  refine (Sorted_Forall2 _ _ _ _ _ leaderboard E
            (ordered_descending HW2.ORDER_BY_wins_DESC _)).
  intros a a' b b' Ea Ea' L.
  apply entry_of_fields in Ea, Ea'.
  destruct Ea as (_ & _ & Wa & _), Ea' as (_ & _ & Wa' & _).
  now rewrite Wa, Wa'.
Qed.

(** X16.  In the list [get_leaderboard] returns for 'wins', which is also
    its default, every boxer has at least as many wins as every boxer
    further down; the first one has the most wins of all. *)
Theorem leaderboard_by_wins_ranks
    (d : HW2.db) (leaderboard : list HW2.Entry.t) :
  fst (HW2.get_leaderboard "wins" d) = Returns leaderboard ->
  StronglySorted (fun a b => HW2.Entry.wins b <= HW2.Entry.wins a)
    leaderboard /\
  (forall top rest, leaderboard = top :: rest ->
     forall e, In e leaderboard -> HW2.Entry.wins e <= HW2.Entry.wins top).
Proof.
  intro Run. apply leaderboard_by_wins_descending in Run.
  assert (S : StronglySorted
                (fun a b => HW2.Entry.wins b <= HW2.Entry.wins a) leaderboard).
  { apply Sorted_StronglySorted; [intros x y z; lia | ].
    unfold descending in Run.
    induction Run as [ | a l S IH H]; constructor; trivial.
    destruct H; constructor. now apply Z.ltb_ge. }
  split; trivial.
  intros top rest -> e [<- | I]; [lia | ].
  apply StronglySorted_inv in S. destruct S as [_ All].
  rewrite Forall_forall in All. now apply All.
Qed.

Lemma leaderboard_by_wins_ranks_witness :
  let d := HW2.mk_db roster [] in
  exists leaderboard,
    fst (HW2.get_leaderboard "wins" d) = Returns leaderboard /\
    StronglySorted (fun a b => HW2.Entry.wins b <= HW2.Entry.wins a)
      leaderboard.
Proof.
  intro d.
  destruct (fst (HW2.get_leaderboard "wins" d)) as [leaderboard | e] eqn:Run.
  - exists leaderboard. split; trivial.
    exact (proj1 (leaderboard_by_wins_ranks d leaderboard Run)).
  - vm_compute in Run. discriminate.
Defined.

Lemma Forall2_In_left {A B} (R : A -> B -> Prop) (l : list A) (l' : list B) :
  Forall2 R l l' -> forall a, In a l -> exists b, In b l' /\ R a b.
Proof.
  induction 1 as [ | x y l l' Rxy F IH]; intros a I; [destruct I | ].
  destruct I as [<- | I].
  - exists y. split; [now left | trivial].
  - destruct (IH a I) as (b & Ib & Rab). exists b. split; [now right | trivial].
Qed.

(** Every stored boxer that has fought has its dict in the list
    [get_leaderboard] returns. *)
Lemma leaderboard_members
    (d : HW2.db) (sort_by : string) (leaderboard : list HW2.Entry.t)
    (b : HW2.Row.t) :
  fst (HW2.get_leaderboard sort_by d) = Returns leaderboard ->
  In b (HW2.boxers d) -> 0 < HW2.Row.fights b ->
  exists e, In e leaderboard /\
            HW2.entry_of (b, HW2.sql_win_pct b) = Returns e.
Proof.
  intros Run I Fought.
  assert (O : exists o,
             (sort_by = "win_pct" /\ o = HW2.ORDER_BY_win_pct_DESC \/
              sort_by = "wins" /\ o = HW2.ORDER_BY_wins_DESC)).
  { destruct (string_dec sort_by "win_pct") as [-> | P]; [eauto | ].
    destruct (string_dec sort_by "wins") as [-> | W]; [eauto | ].
    rewrite (get_leaderboard_refuses d sort_by P W) in Run. discriminate. }
  destruct O as [o O]. rewrite (get_leaderboard_run d sort_by o O) in Run.
  simpl in Run. apply entries_Forall2 in Run.
  destruct (fetched_rows o (HW2.boxers d)) as [Perm Rows].
  assert (In_w : In b (map fst (HW2.ordered o
                   (HW2.with_win_pct (HW2.where_fights (HW2.boxers d)))))).
  { apply (Permutation_in _ (Permutation_sym Perm)).
    unfold HW2.where_fights. apply filter_In. split; trivial.
    now apply Z.ltb_lt. }
  apply in_map_iff in In_w. destruct In_w as ([b0 x] & E & In_f).
  simpl in E. subst b0.
  rewrite Forall_forall in Rows. destruct (Rows _ In_f) as (Ex & _).
  simpl in Ex. subst x.
  destruct (Forall2_In_left _ _ _ Run _ In_f) as (e & Ie & Ee). eauto.
Qed.

(** ** Recording results *)

(** X17.  Once a result is recorded for a stored boxer, the boxer is on the
    leaderboard: with stored weights of at least 125, after
    [update_boxer_stats] with 'win' or 'loss' for a boxer without negative
    fights, the list [get_leaderboard] returns has a dict of that id, with
    one fight more than before. *)
Theorem recorded_boxer_is_ranked
    (d : HW2.db) (boxer_id : Z) (result sort_by : string) (b : HW2.Row.t) :
  find (HW2.has_id boxer_id) (HW2.boxers d) = Some b ->
  result = "win" \/ result = "loss" ->
  sort_by = "wins" \/ sort_by = "win_pct" ->
  Forall (fun r => (125 <= HW2.Row.weight r)%Q) (HW2.boxers d) ->
  0 <= HW2.Row.fights b ->
  let d' := snd (HW2.update_boxer_stats boxer_id result d) in
  exists leaderboard e,
    fst (HW2.get_leaderboard sort_by d') = Returns leaderboard /\
    In e leaderboard /\
    HW2.Entry.id e = boxer_id /\
    HW2.Entry.fights e = HW2.Row.fights b + 1.
Proof.
  intros Found Valid Sort Weights Fights d'. subst d'.
  pose proof (update_boxer_stats_keeps_weights d boxer_id result Weights)
    as Weights'.
  destruct (leaderboard_returns
              (snd (HW2.update_boxer_stats boxer_id result d)) sort_by Sort)
    as [leaderboard Run].
  { apply Forall_impl with (2 := Weights'). auto. }
  exists leaderboard.
  assert (Row : exists b',
             In b' (HW2.boxers (snd (HW2.update_boxer_stats boxer_id result d)))
             /\ HW2.Row.id b' = boxer_id /\
             HW2.Row.fights b' = HW2.Row.fights b + 1).
  { assert (Id : HW2.Row.id b = boxer_id)
      by (apply find_some in Found; now apply Z.eqb_eq).
    destruct Valid as [-> | ->].
    - rewrite (update_win d boxer_id b Found). simpl.
      exists (HW2.won b). split; [ | now split].
      apply (find_some (HW2.has_id boxer_id)).
      now rewrite find_updated, Found.
    - rewrite (update_loss d boxer_id b Found). simpl.
      exists (HW2.lost b). split; [ | now split].
      apply (find_some (HW2.has_id boxer_id)).
      now rewrite find_updated, Found. }
  destruct Row as (b' & I & Id & F).
  destruct (leaderboard_members _ sort_by leaderboard b' Run I) as (e & Ie & Ee);
    [lia | ].
  exists e. apply entry_of_fields in Ee. simpl in Ee.
  destruct Ee as (Ei & Ef & _).
  repeat split; trivial; congruence.
Qed.

Lemma recorded_boxer_is_ranked_witness :
  let d' := snd (HW2.update_boxer_stats 1 "loss" (HW2.mk_db [ali; frazier] [])) in
  exists leaderboard e,
    fst (HW2.get_leaderboard "win_pct" d') = Returns leaderboard /\
    In e leaderboard /\ HW2.Entry.id e = 1 /\ HW2.Entry.fights e = 0 + 1.
Proof.
  apply (recorded_boxer_is_ranked (HW2.mk_db [ali; frazier] []) 1
           "loss" "win_pct" ali eq_refl (or_intror eq_refl) (or_intror eq_refl)).
  - repeat constructor; discriminate.
  - discriminate.
Defined.

(** X18.  A call of [update_boxer_stats], with whatever arguments, keeps
    the rows in place and touches nothing but the two counters: in every
    row the id, name, weight, height, reach and age are as before, fights
    has grown by 0 or 1, and wins by 0 or 1 and not by more than fights. *)
Theorem update_boxer_stats_only_counts
    (d : HW2.db) (boxer_id : Z) (result : string) :
  Forall2
    (fun old new =>
       HW2.Row.id new = HW2.Row.id old /\
       HW2.Row.name new = HW2.Row.name old /\
       HW2.Row.weight new = HW2.Row.weight old /\
       HW2.Row.height new = HW2.Row.height old /\
       HW2.Row.reach new = HW2.Row.reach old /\
       HW2.Row.age new = HW2.Row.age old /\
       0 <= HW2.Row.wins new - HW2.Row.wins old
         <= HW2.Row.fights new - HW2.Row.fights old /\
       HW2.Row.fights new - HW2.Row.fights old <= 1)
    (HW2.boxers d)
    (HW2.boxers (snd (HW2.update_boxer_stats boxer_id result d))).
Proof.
  assert (Updated : forall f t,
            f = HW2.won \/ f = HW2.lost ->
            Forall2
              (fun old new =>
                 HW2.Row.id new = HW2.Row.id old /\
                 HW2.Row.name new = HW2.Row.name old /\
                 HW2.Row.weight new = HW2.Row.weight old /\
                 HW2.Row.height new = HW2.Row.height old /\
                 HW2.Row.reach new = HW2.Row.reach old /\
                 HW2.Row.age new = HW2.Row.age old /\
                 0 <= HW2.Row.wins new - HW2.Row.wins old
                   <= HW2.Row.fights new - HW2.Row.fights old /\
                 HW2.Row.fights new - HW2.Row.fights old <= 1)
              t (HW2.update_where_id boxer_id f t)).
  { intros f t Which. induction t as [ | r t IH]; simpl; constructor; trivial.
    destruct (HW2.has_id boxer_id r);
      [destruct Which as [-> | ->] | ]; simpl; repeat split; lia. }
  destruct (update_boxer_stats_table d boxer_id result) as [-> | [-> | ->]];
    auto.
  induction (HW2.boxers d); constructor; trivial. repeat split; lia.
Qed.





(** * The helper of the test module *)



























(** * Further properties of the SQLAlchemy module *)











(** X27.  [Boxers.delete] of the SQLAlchemy module: for an id that no
    stored boxer has it raises [NameError], not the [ValueError] of its
    docstring, and the stored boxers are as before; for the id of a stored
    boxer it returns, and what is left are the boxers of the other ids. *)
Theorem HW3_delete_outcomes (stored : list HW3.Boxers.t) (boxer_id : Z) :
  ((forall b, In b stored -> HW3.Boxers.id b <> boxer_id) ->
   HW3.delete stored boxer_id =
   (Raises (NameError "SQLAlchemyError"), stored)) /\
  ((exists b, In b stored /\ HW3.Boxers.id b = boxer_id) ->
   exists left,
     HW3.delete stored boxer_id = (Returns tt, left) /\
     forall b, In b left <-> In b stored /\ HW3.Boxers.id b <> boxer_id).
Proof.
  unfold HW3.delete, HW3.get_boxer_by_id. split.
  - intro Missing.
    destruct (find (fun b => HW3.Boxers.id b =? boxer_id) stored)
      as [b | ] eqn:F; trivial.
    apply find_some in F. destruct F as [I E]. apply Z.eqb_eq in E.
    now destruct (Missing b I).
  - intros (b & I & E).
    destruct (find (fun b => HW3.Boxers.id b =? boxer_id) stored)
      as [b0 | ] eqn:F.
    + apply find_some in F. destruct F as [_ E0]. apply Z.eqb_eq in E0.
      eexists. split; [reflexivity | ]. intro x. rewrite filter_In, E0.
      rewrite negb_true_iff, Z.eqb_neq. tauto.
    + apply (find_none _ _ F) in I. apply Z.eqb_neq in I. contradiction.
Qed.
